(** * fast-eci: the ECI -> ECF shortcut and its validation harness

    A shallow embedding of [src/main.py].  The program compares a cheap
    approximation of the inertial -> Earth-fixed transform (one exact
    baseline transform followed by a rotation about the polar axis) with
    the transform computed by the Orekit library, collects the errors per
    offset from the reference epoch and prints a report.

    Orekit and Hipparchus are libraries the program calls and are not
    part of the repository: their objects and methods are an interface
    ([Orekit]) over which the program is written.  Calls of the interface
    are taken to return; a run in which one of them raises is outside the
    model.  The numbers of the program are Python floats (and Java
    doubles across the bridge): the interface [PyFloat] lists the
    operations the program performs on them, with two instances, IEEE
    binary64 ([binary64]) and exact integer arithmetic ([exactZ]). *)

From Stdlib Require Import ZArith List Bool Lia Permutation Sorted.
From Stdlib Require Import Floats.PrimFloat Floats.SpecFloat Floats.FloatOps.
Import ListNotations.

Set Implicit Arguments.

(** ** Numbers *)

(** The operations of a Python float that [main.py] and the statistics
    accumulators use.  [str] is Python's [str] on a float, which the
    program uses only as a dictionary key: the keys are compared, never
    printed, so a key type with decidable equality is all that is kept. *)
Class PyFloat (F : Type) := {
  zero : F;
  nan : F;
  of_int : Z -> F;
  add : F -> F -> F;
  sub : F -> F -> F;
  mul : F -> F -> F;
  div : F -> F -> F;
  sqrt : F -> F;
  ltb : F -> F -> bool;
  leb : F -> F -> bool;
  eqb : F -> F -> bool;
  Key : Type;
  str : F -> Key;
  key_eq_dec : forall a b : Key, {a = b} + {a <> b}
}.

(** [range(a, b)] *)
Definition range (a b : Z) : list Z :=
  map (fun k => (a + Z.of_nat k)%Z) (seq 0 (Z.to_nat (b - a))).

(** ** The Orekit / Hipparchus interface *)

Inductive RotationConvention := VECTOR_OPERATOR | FRAME_TRANSFORM.

Inductive IERSConventions := IERS_1996 | IERS_2003 | IERS_2010.

Class Orekit (F : Type) := {
  AbsoluteDate : Type;
  Frame : Type;
  Transform : Type;
  PVCoordinates : Type;
  Vector3D : Type;
  Rotation : Type;
  (* AbsoluteDate *)
  shiftedBy : AbsoluteDate -> F -> AbsoluteDate;
  durationFrom : AbsoluteDate -> AbsoluteDate -> F;
  (* Frame.getTransformTo(destination, date) *)
  getTransformTo : Frame -> Frame -> AbsoluteDate -> Transform;
  (* Transform.IDENTITY, Transform(date, rotation) *)
  IDENTITY : Transform;
  Transform_of : AbsoluteDate -> Rotation -> Transform;
  transformPVCoordinates : Transform -> PVCoordinates -> PVCoordinates;
  (* Rotation(axis, angle, convention) *)
  Rotation_of : Vector3D -> F -> RotationConvention -> Rotation;
  PLUS_K : Vector3D;
  WGS84_EARTH_ANGULAR_VELOCITY : F;
  getPosition : PVCoordinates -> Vector3D;
  getVelocity : PVCoordinates -> Vector3D;
  distance : Vector3D -> Vector3D -> F;
  angle : Vector3D -> Vector3D -> F;
  toDegrees : F -> F
}.

(** [context.getFrames()] *)
Record Frames (Fr : Type) := {
  getGCRF : Fr;
  getEME2000 : Fr;
  getTEME : Fr;
  getITRF : IERSConventions -> bool -> Fr
}.

Record DataContext (Fr : Type) := { getFrames : Frames Fr }.

(** ** Samples *)

(** The dictionary appended to [results] in [checkSample]. *)
Record SampleResult (F : Type) := {
  deltaTime : F;
  posError : F;
  velMagError : F;
  velAngError : F
}.

(** What the program prints, one constructor per [print] call, with the
    values that the f-string formats. *)
Inductive Line (D F : Type) :=
| TimePoint (date : D)
| DeltaFromEpoch (x : F)
| PosErrorLine (x : F)
| VelMagErrorLine (x : F)
| VelAngErrorLine (x : F)
| CheckPosErrorLine (x : F)
| CheckVelMagErrorLine (x : F)
| CheckVelAngErrorLine (x : F)
| DeltaTimeLine (x : F)
| PosErrLine (mean stddev : F)
| VelErrLine (mean stddev : F)
| VelErrDegLine (mean stddev : F)
| BlankLine
| TotalTimeLine
| HighFidelityLine (x : F)
| EstimatedLine (x : F)
| PercentImprovementLine (x : F).

Arguments BlankLine {D F}.
Arguments TotalTimeLine {D F}.
Arguments DeltaFromEpoch {D F} x.
Arguments PosErrorLine {D F} x.
Arguments VelMagErrorLine {D F} x.
Arguments VelAngErrorLine {D F} x.
Arguments CheckPosErrorLine {D F} x.
Arguments CheckVelMagErrorLine {D F} x.
Arguments CheckVelAngErrorLine {D F} x.
Arguments DeltaTimeLine {D F} x.
Arguments PosErrLine {D F} mean stddev.
Arguments VelErrLine {D F} mean stddev.
Arguments VelErrDegLine {D F} mean stddev.
Arguments HighFidelityLine {D F} x.
Arguments EstimatedLine {D F} x.
Arguments PercentImprovementLine {D F} x.
Arguments TimePoint {D F} date.

Section Program.

Context {F : Type} {num : PyFloat F} {lib : Orekit F}.

(** ** checkSample *)

(** [pvProv.getPVCoordinates(date, frame)] *)
Definition PVCoordinatesProvider := AbsoluteDate -> Frame -> PVCoordinates.

(** [time.time()]: the reading returned by the n-th call of the run. *)
Definition Clock := nat -> F.

(** The local variables of one iteration of the loop over the test points. *)
Record Locals := {
  inertialPv : PVCoordinates;
  fixedPv : PVCoordinates;
  fixedTx : Transform;
  l_deltaTime : F;
  tmp : PVCoordinates;
  estimatedFixedPv : PVCoordinates;
  actualTx : Transform;
  actualFixedPv : PVCoordinates;
  deltaPosMag : F;
  deltaVelMag : F;
  deltaVelAng : F;
  deltaActPosMag : F;
  deltaActVelMag : F;
  deltaActVelAng : F
}.

(** Lines 83-88: the incremental transform of the estimate. *)
Definition incremental (point : AbsoluteDate) (dt : F) : Transform :=
  if ltb zero dt
  then Transform_of point
         (Rotation_of PLUS_K (mul dt WGS84_EARTH_ANGULAR_VELOCITY) FRAME_TRANSFORM)
  else IDENTITY.

(** Lines 83-91: the estimated Earth-fixed state. *)
Definition estimate (baselineInertialToFixed : Transform)
    (point : AbsoluteDate) (dt : F) (pv : PVCoordinates) : PVCoordinates :=
  let fixedTx := incremental point dt in
  let tmp := transformPVCoordinates baselineInertialToFixed pv in
  transformPVCoordinates fixedTx tmp.

(** Lines 79-110 without the clock readings. *)
Definition evalPoint (date : AbsoluteDate) (pvProv : PVCoordinatesProvider)
    (inertialFrame ecef : Frame) (baselineInertialToFixed : Transform)
    (point : AbsoluteDate) : Locals :=
  let inertialPv := pvProv point inertialFrame in
  let fixedPv := pvProv point ecef in
  let deltaTime := durationFrom point date in
  let fixedTx := incremental point deltaTime in
  let tmp := transformPVCoordinates baselineInertialToFixed inertialPv in
  let estimatedFixedPv := estimate baselineInertialToFixed point deltaTime inertialPv in
  let actualTx := getTransformTo inertialFrame ecef point in
  let actualFixedPv := transformPVCoordinates actualTx inertialPv in
  let deltaPosMag := distance (getPosition fixedPv) (getPosition estimatedFixedPv) in
  let deltaVelMag := distance (getVelocity fixedPv) (getVelocity estimatedFixedPv) in
  let deltaVelAng :=
    toDegrees (angle (getVelocity fixedPv) (getVelocity estimatedFixedPv)) in
  let deltaActPosMag := distance (getPosition fixedPv) (getPosition actualFixedPv) in
  let deltaActVelMag := distance (getVelocity fixedPv) (getVelocity actualFixedPv) in
  let deltaActVelAng :=
    toDegrees (angle (getVelocity fixedPv) (getVelocity estimatedFixedPv)) in
  {| inertialPv := inertialPv; fixedPv := fixedPv; fixedTx := fixedTx;
     l_deltaTime := deltaTime; tmp := tmp; estimatedFixedPv := estimatedFixedPv;
     actualTx := actualTx; actualFixedPv := actualFixedPv;
     deltaPosMag := deltaPosMag; deltaVelMag := deltaVelMag;
     deltaVelAng := deltaVelAng; deltaActPosMag := deltaActPosMag;
     deltaActVelMag := deltaActVelMag; deltaActVelAng := deltaActVelAng |}.

(** Lines 112-120. *)
Definition verboseLines (date : AbsoluteDate) (l : Locals) : list (Line AbsoluteDate F) :=
  [ TimePoint date;
    DeltaFromEpoch (l_deltaTime l);
    PosErrorLine (deltaPosMag l);
    VelMagErrorLine (deltaVelMag l);
    VelAngErrorLine (deltaVelAng l);
    CheckPosErrorLine (deltaActPosMag l);
    CheckVelMagErrorLine (deltaActVelMag l);
    CheckVelAngErrorLine (deltaActVelAng l) ].

(** Lines 122-127. *)
Definition sampleOf (l : Locals) : SampleResult F :=
  {| deltaTime := l_deltaTime l;
     posError := deltaPosMag l;
     velMagError := deltaVelMag l;
     velAngError := deltaVelAng l |}.

(** The state of the loop of [checkSample]: the three accumulators, the
    number of clock readings taken so far and the lines printed so far. *)
Record LoopState := {
  results : list (SampleResult F);
  estTime : F;
  actTime : F;
  ticks : nat;
  printed : list (Line AbsoluteDate F)
}.

(** One iteration, lines 78-127.  The clock is read four times:
    [eStart], [eStop], [aStart], [aStop]. *)
Definition checkSample_step (clock : Clock) (date : AbsoluteDate)
    (pvProv : PVCoordinatesProvider) (inertialFrame ecef : Frame)
    (baselineInertialToFixed : Transform) (verbose : bool)
    (st : LoopState) (point : AbsoluteDate) : LoopState :=
  let l := evalPoint date pvProv inertialFrame ecef baselineInertialToFixed point in
  let eStart := clock (ticks st) in
  let eStop := clock (1 + ticks st)%nat in
  let aStart := clock (2 + ticks st)%nat in
  let aStop := clock (3 + ticks st)%nat in
  {| results := results st ++ [sampleOf l];
     estTime := add (estTime st) (sub eStop eStart);
     actTime := add (actTime st) (sub aStop aStart);
     ticks := (4 + ticks st)%nat;
     printed := printed st ++ (if verbose then verboseLines date l else []) |}.

(** Line 72. *)
Definition testPoints (date : AbsoluteDate) (numTests : Z) (testStep : F)
  : list AbsoluteDate :=
  map (fun i => shiftedBy date (mul (of_int i) testStep)) (range 0 numTests).

(** The offsets [i * testStep] for [i] in [range(0, numTests)]. *)
Definition stepMultiples (numTests : Z) (testStep : F) : list F :=
  map (fun i => mul (of_int i) testStep) (range 0 numTests).

(** Lines 64-69. *)
Definition frameOrDefault (context : DataContext Frame) (inertialFrame : option Frame)
  : Frame :=
  match inertialFrame with
  | None => getGCRF (getFrames context)
  | Some f => f
  end.

Definition ecefOf (context : DataContext Frame) : Frame :=
  getITRF (getFrames context) IERS_2010 false.

(** The locals of the iteration of [checkSample] at a test point. *)
Definition localsAt (date : AbsoluteDate) (pvProv : PVCoordinatesProvider)
    (context : DataContext Frame) (inertialFrame : option Frame)
    (point : AbsoluteDate) : Locals :=
  let inertial := frameOrDefault context inertialFrame in
  let ecef := ecefOf context in
  evalPoint date pvProv inertial ecef (getTransformTo inertial ecef date) point.

(** [checkSample], started when the clock has been read [t0] times.  The
    final state carries the returned triple [(results, estTime, actTime)],
    the lines printed and the number of clock readings. *)
Definition checkSample (clock : Clock) (t0 : nat)
    (date : AbsoluteDate) (pvProv : PVCoordinatesProvider)
    (context : DataContext Frame) (inertialFrame : option Frame)
    (numTests : Z) (testStep : F) (verbose : bool) : LoopState :=
  let inertialFrame := frameOrDefault context inertialFrame in
  let ecef := ecefOf context in
  let baselineInertialToFixed := getTransformTo inertialFrame ecef date in
  fold_left
    (checkSample_step clock date pvProv inertialFrame ecef
       baselineInertialToFixed verbose)
    (testPoints date numTests testStep)
    {| results := []; estTime := zero; actTime := zero; ticks := t0; printed := [] |}.

(** ** The statistics accumulators *)

(** Modelled from the spec: [DescriptiveStatistics] of the Hipparchus
    library, which is not part of the repository.  The spec (4.3) gives
    its reference behaviour as "store and compute": the values are kept
    in arrival order, the mean is their sum over their number and the
    standard deviation is the sample one (divisor [n - 1]).  An empty
    store has no mean; a store of one value has standard deviation 0. *)
Definition DescriptiveStatistics := list F.

Definition newStatistics (initial : list F) : DescriptiveStatistics := initial.

Definition addValue (s : DescriptiveStatistics) (v : F) : DescriptiveStatistics :=
  s ++ [v].

Definition getN (s : DescriptiveStatistics) : nat := length s.

Definition total (l : list F) : F := fold_left add l zero.

Definition getMean (s : DescriptiveStatistics) : F :=
  match s with
  | [] => nan
  | _ => div (total s) (of_int (Z.of_nat (getN s)))
  end.

Definition squaredDeviations (s : DescriptiveStatistics) : list F :=
  let m := getMean s in
  map (fun x => mul (sub x m) (sub x m)) s.

Definition getVariance (s : DescriptiveStatistics) : F :=
  match s with
  | [] => nan
  | [_] => zero
  | _ => div (total (squaredDeviations s)) (of_int (Z.of_nat (getN s) - 1))
  end.

Definition getStandardDeviation (s : DescriptiveStatistics) : F :=
  match s with
  | [] => nan
  | [_] => zero
  | _ => sqrt (getVariance s)
  end.

(** ** The dictionary of per-offset statistics *)

(** A Python [dict]: it iterates in insertion order, so it is kept as an
    association list in which a new key goes to the end and an existing
    key keeps its place. *)
Definition Dict (V : Type) := list (Key * V).

Fixpoint dict_get {V : Type} (k : Key) (d : Dict V) : option V :=
  match d with
  | [] => None
  | (k', v) :: d' => if key_eq_dec k k' then Some v else dict_get k d'
  end.

Fixpoint dict_set {V : Type} (k : Key) (v : V) (d : Dict V) : Dict V :=
  match d with
  | [] => [(k, v)]
  | (k', v') :: d' =>
      if key_eq_dec k k' then (k', v) :: d' else (k', v') :: dict_set k v d'
  end.

Definition dict_values {V : Type} (d : Dict V) : list V := map snd d.

(** The value stored under a key of [results] in [main]. *)
Record OffsetStatistics := {
  stat_deltaTime : F;
  stat_posError : DescriptiveStatistics;
  stat_velMagError : DescriptiveStatistics;
  stat_velAngError : DescriptiveStatistics
}.

(** Lines 199-210: one sample enters the dictionary. *)
Definition add_sample (results : Dict OffsetStatistics) (d : SampleResult F)
  : Dict OffsetStatistics :=
  let key := str (deltaTime d) in
  match dict_get key results with
  | None =>
      dict_set key
        {| stat_deltaTime := deltaTime d;
           stat_posError := newStatistics [posError d];
           stat_velMagError := newStatistics [velMagError d];
           stat_velAngError := newStatistics [velAngError d] |}
        results
  | Some r =>
      dict_set key
        {| stat_deltaTime := stat_deltaTime r;
           stat_posError := addValue (stat_posError r) (posError d);
           stat_velMagError := addValue (stat_velMagError r) (velMagError d);
           stat_velAngError := addValue (stat_velAngError r) (velAngError d) |}
        results
  end.

(** Lines 198-210: the loop [for d in data]. *)
Definition aggregate (results : Dict OffsetStatistics) (data : list (SampleResult F))
  : Dict OffsetStatistics :=
  fold_left add_sample data results.

(** The samples of a list that are filed under the key [k]. *)
Definition hasKey (k : Key) (d : SampleResult F) : bool :=
  if key_eq_dec (str (deltaTime d)) k then true else false.

Definition samplesWithKey (k : Key) (data : list (SampleResult F))
  : list (SampleResult F) :=
  filter (hasKey k) data.

(** A bucket [b] (if any) after the samples [ds] of its key have been
    added to it, in the words of the spec (4.3): the bucket holds the
    errors of all the samples added with its key. *)
Definition extend (b : option OffsetStatistics) (ds : list (SampleResult F))
  : option OffsetStatistics :=
  match b, ds with
  | None, [] => None
  | None, d :: _ =>
      Some {| stat_deltaTime := deltaTime d;
              stat_posError := map (@posError F) ds;
              stat_velMagError := map (@velMagError F) ds;
              stat_velAngError := map (@velAngError F) ds |}
  | Some r, _ =>
      Some {| stat_deltaTime := stat_deltaTime r;
              stat_posError := stat_posError r ++ map (@posError F) ds;
              stat_velMagError := stat_velMagError r ++ map (@velMagError F) ds;
              stat_velAngError := stat_velAngError r ++ map (@velAngError F) ds |}
  end.

Definition bucketOf (k : Key) (data : list (SampleResult F))
  : option OffsetStatistics :=
  extend None (samplesWithKey k data).

(** The mean and the standard deviation that the report prints for an
    accumulator, and the three pairs of a bucket. *)
Definition meanStddev (s : DescriptiveStatistics) : F * F :=
  (getMean s, getStandardDeviation s).

Definition summary (r : OffsetStatistics) : (F * F) * (F * F) * (F * F) :=
  (meanStddev (stat_posError r),
   meanStddev (stat_velMagError r),
   meanStddev (stat_velAngError r)).

(** The [deltaTime] entries of the buckets, in iteration order. *)
Definition offsets (results : Dict OffsetStatistics) : list F :=
  map stat_deltaTime (dict_values results).

(** Lines 212-216, for one value of the dictionary. *)
Definition reportLines {D : Type} (r : OffsetStatistics) : list (Line D F) :=
  [ DeltaTimeLine (stat_deltaTime r);
    PosErrLine (getMean (stat_posError r)) (getStandardDeviation (stat_posError r));
    VelErrLine (getMean (stat_velMagError r))
               (getStandardDeviation (stat_velMagError r));
    VelErrDegLine (getMean (stat_velAngError r))
                  (getStandardDeviation (stat_velAngError r)) ].

(** How a run ends: normally, or with Python's [ZeroDivisionError]. *)
Inductive Outcome := Completed | ZeroDivisionError.

(** Python's [/]: it raises when the divisor compares equal to zero. *)
Definition py_div (a b : F) : option F :=
  if eqb b zero then None else Some (div a b).

(** Lines 218-222: the timing totals and the percent improvement.  The
    f-string of the last [print] is evaluated before anything of that
    line is printed. *)
Definition timingReport {D : Type} (actualTime estimateTime : F)
  : list (Line D F) * Outcome :=
  let head :=
    [ BlankLine; TotalTimeLine;
      HighFidelityLine actualTime; EstimatedLine estimateTime ] in
  match py_div (mul (of_int 100) (sub actualTime estimateTime)) actualTime with
  | Some p => (head ++ [PercentImprovementLine p], Completed)
  | None => (head, ZeroDivisionError)
  end.

(** ** main *)

Inductive InertialChoice := j2000 | gcrf.

(** The parsed command line, with argparse's names. *)
Record Args := {
  sample_points : Z;
  step : F;
  verbose : bool;
  inertial_frame : InertialChoice;
  tests_per_sample : Z;
  test_step : F
}.

(** The state of the loop over the reference epochs. *)
Record MainState := {
  m_results : Dict OffsetStatistics;
  estimateTime : F;
  actualTime : F;
  m_ticks : nat;
  m_printed : list (Line AbsoluteDate F)
}.

(** Line 178. *)
Definition sampleTimes (args : Args) (tleDate : AbsoluteDate) : list AbsoluteDate :=
  map (fun i => shiftedBy tleDate (mul (mul (of_int i) (step args)) (of_int 60)))
      (range 0 (sample_points args)).

(** Lines 181-183. *)
Definition pickInertialFrame (args : Args) (context : DataContext Frame) : Frame :=
  match inertial_frame args with
  | j2000 => getEME2000 (getFrames context)
  | gcrf => getGCRF (getFrames context)
  end.

(** Lines 189-210: one reference epoch. *)
Definition main_step (clock : Clock) (args : Args)
    (propagator : PVCoordinatesProvider) (context : DataContext Frame)
    (inertialFrame : Frame) (st : MainState) (date : AbsoluteDate) : MainState :=
  let cs := checkSample clock (m_ticks st) date propagator context
              (Some inertialFrame) (tests_per_sample args) (test_step args)
              (verbose args) in
  {| m_results := aggregate (m_results st) (results cs);
     estimateTime := add (estimateTime st) (estTime cs);
     actualTime := add (actualTime st) (actTime cs);
     m_ticks := ticks cs;
     m_printed := m_printed st ++ printed cs |}.

(** Lines 185-210: the loop over the reference epochs. *)
Definition main_loop (clock : Clock) (args : Args) (tleDate : AbsoluteDate)
    (propagator : PVCoordinatesProvider) (context : DataContext Frame) : MainState :=
  fold_left
    (main_step clock args propagator context (pickInertialFrame args context))
    (sampleTimes args tleDate)
    {| m_results := []; estimateTime := zero; actualTime := zero;
       m_ticks := 0%nat; m_printed := [] |}.

(** [main] after the command line is parsed, the data files are loaded
    and the element set is fetched: [tleDate] is [tle.getDate()] and
    [propagator] the SGP4 propagator built from it.  The result is what
    the run prints and how it ends. *)
Definition main (clock : Clock) (args : Args) (tleDate : AbsoluteDate)
    (propagator : PVCoordinatesProvider) (context : DataContext Frame)
  : list (Line AbsoluteDate F) * Outcome :=
  let st := main_loop clock args tleDate propagator context in
  let (tail, outcome) := timingReport (actualTime st) (estimateTime st) in
  (m_printed st ++ flat_map reportLines (dict_values (m_results st)) ++ tail,
   outcome).

(** Python's [a < b] holds. *)
Definition ascending (a b : F) : Prop := ltb a b = true.

(** The offsets of the per-offset report, in the order they are printed. *)
Definition reportedOffsets (out : list (Line AbsoluteDate F)) : list F :=
  flat_map (fun l => match l with DeltaTimeLine x => [x] | _ => [] end) out.

End Program.

(** ** Contracts of the collaborators and laws of exact arithmetic

    The properties of the libraries and of the numbers that the facts
    below rely on.  Each fact names the ones it needs as premises. *)

Section Laws.

Context {F : Type} {num : PyFloat F} {lib : Orekit F}.

(** [Transform.IDENTITY] leaves a state unchanged. *)
Definition IdentityLaw : Prop :=
  forall pv, transformPVCoordinates IDENTITY pv = pv.

(** The duration from a date to that date shifted by [x] is [x]. *)
Definition ShiftDurationLaw : Prop :=
  forall d x, durationFrom (shiftedBy d x) d = x.

(** Shifting a date by zero gives the date. *)
Definition ShiftZeroLaw : Prop :=
  forall d, shiftedBy d zero = d.

(** A vector is at distance zero from itself. *)
Definition DistanceSelfLaw : Prop :=
  forall v, distance v v = zero.

(** A vector makes the angle zero, in degrees, with itself. *)
Definition AngleSelfLaw : Prop :=
  forall v, toDegrees (angle v v) = zero.

(** The state provider agrees with the exact transform at [t]: its
    answer in [ecef] is the transform of its answer in [inertial]. *)
Definition ConsistentAt (pvProv : PVCoordinatesProvider)
    (inertial ecef : Frame) (t : AbsoluteDate) : Prop :=
  pvProv t ecef
  = transformPVCoordinates (getTransformTo inertial ecef t) (pvProv t inertial).

(** A number that is at most zero is not greater than zero. *)
Definition NonPositiveLaw : Prop :=
  forall x, leb x zero = true -> ltb zero x = false.

(** Addition is commutative and associative. *)
Definition AddCommLaw : Prop := forall a b, add a b = add b a.

Definition AddAssocLaw : Prop := forall a b c, add a (add b c) = add (add a b) c.

(** The multiples of a positive step grow with the index. *)
Definition MultiplesGrowLaw : Prop :=
  forall (i j : Z) (s : F),
    (0 <= i < j)%Z -> ltb zero s = true ->
    ltb (mul (of_int i) s) (mul (of_int j) s) = true.

End Laws.

Arguments OffsetStatistics F : clear implicits.
Arguments Clock F : clear implicits.
Arguments Args F : clear implicits.

(** ** IEEE binary64: the floats of a real run *)

Definition spec_float_eq_dec (a b : spec_float) : {a = b} + {a <> b}.
Proof.
  decide equality; first [ apply Bool.bool_dec | apply Z.eq_dec | apply Pos.eq_dec ].
Defined.

(** [float(i)]: the integer rounded to nearest, ties to even. *)
Definition float_of_int (i : Z) : float :=
  SF2Prim (binary_normalize prec emax i 0 false).

(** Python's [str] never gives two distinct floats the same text, except
    that every NaN prints as ["nan"]; the key of a float is its value
    with the NaN payload dropped. *)
Definition binary64 : PyFloat float := {|
  zero := PrimFloat.zero;
  nan := PrimFloat.nan;
  of_int := float_of_int;
  add := PrimFloat.add;
  sub := PrimFloat.sub;
  mul := PrimFloat.mul;
  div := PrimFloat.div;
  sqrt := PrimFloat.sqrt;
  ltb := PrimFloat.ltb;
  leb := PrimFloat.leb;
  eqb := PrimFloat.eqb;
  Key := spec_float;
  str := Prim2SF;
  key_eq_dec := spec_float_eq_dec
|}.

(** ** Exact arithmetic on whole numbers *)

(** Runs in which every quantity is an integer: no rounding, and the
    usual laws of addition and order hold.  There is no NaN among the
    integers; [nan] only stands for the statistics of an empty store,
    and a bucket is never empty. *)
Definition exactZ : PyFloat Z := {|
  zero := 0%Z;
  nan := 0%Z;
  of_int := fun i => i;
  add := Z.add;
  sub := Z.sub;
  mul := Z.mul;
  div := Z.div;
  sqrt := Z.sqrt;
  ltb := Z.ltb;
  leb := Z.leb;
  eqb := Z.eqb;
  Key := Z;
  str := fun x => x;
  key_eq_dec := Z.eq_dec
|}.

(** ** A synthetic Earth *)

(** Collaborators for test runs over [exactZ], after the end-to-end
    scenario of the spec (section 8): time is counted in whole seconds,
    angles in quarter turns, the Earth makes a quarter turn per second
    about +K and the satellite moves at constant velocity in the
    inertial frame.  The exact inertial -> Earth-fixed transform at time
    [t] is the frame rotation by [t] quarter turns. *)
Module Synthetic.

Inductive frame := GCRF | EME2000 | TEME | ITRF.

Definition vec : Type := Z * Z * Z.
Definition pv : Type := vec * vec.

Definition vec_eqb (a b : vec) : bool :=
  let '(x, y, z) := a in
  let '(x', y', z') := b in
  (x =? x')%Z && (y =? y')%Z && (z =? z')%Z.

(** The coordinates of a vector in a frame turned by [q] quarter turns
    about +K. *)
Definition turn (q : Z) (v : vec) : vec :=
  let '(x, y, z) := v in
  match (q mod 4)%Z with
  | 0%Z => (x, y, z)
  | 1%Z => (y, (- x)%Z, z)
  | 2%Z => ((- x)%Z, (- y)%Z, z)
  | _ => ((- y)%Z, x, z)
  end.

Definition isInertial (f : frame) : bool :=
  match f with ITRF => false | _ => true end.

Definition transformTo (from to : frame) (t : Z) : Z :=
  match isInertial from, isInertial to with
  | true, false => t
  | false, true => (- t)%Z
  | _, _ => 0%Z
  end.

(** The library, with [omega] as its Earth angular velocity constant
    (in quarter turns per second; the synthetic Earth turns at 1). *)
Definition libWith (omega : Z) : Orekit Z := {|
  AbsoluteDate := Z;
  Frame := frame;
  Transform := Z;
  PVCoordinates := pv;
  Vector3D := vec;
  Rotation := Z;
  shiftedBy := fun d x => (d + x)%Z;
  durationFrom := fun a b => (a - b)%Z;
  getTransformTo := transformTo;
  IDENTITY := 0%Z;
  Transform_of := fun _ r => r;
  transformPVCoordinates := fun q s => (turn q (fst s), turn q (snd s));
  Rotation_of := fun _ a c =>
    match c with FRAME_TRANSFORM => a | VECTOR_OPERATOR => (- a)%Z end;
  PLUS_K := (0, 0, 1)%Z;
  WGS84_EARTH_ANGULAR_VELOCITY := omega;
  getPosition := fst;
  getVelocity := snd;
  distance := fun a b =>
    let '(x, y, z) := a in
    let '(x', y', z') := b in
    (Z.abs (x - x') + Z.abs (y - y') + Z.abs (z - z'))%Z;
  angle := fun a b => if vec_eqb a b then 0%Z else 1%Z;
  toDegrees := fun a => (90 * a)%Z
|}.

Definition lib : Orekit Z := libWith 1.

Definition frames : Frames frame :=
  {| getGCRF := GCRF; getEME2000 := EME2000; getTEME := TEME;
     getITRF := fun _ _ => ITRF |}.

Definition context : DataContext frame := {| getFrames := frames |}.

(** A satellite at constant velocity in the inertial frame; its
    Earth-fixed state is the exact transform of the inertial one. *)
Definition inertialState (t : Z) : pv := ((7 + 2 * t, 3, 1)%Z, (2, 0, 0)%Z).

Definition satellite (t : Z) (f : frame) : pv :=
  if isInertial f then inertialState t
  else (turn t (fst (inertialState t)), turn t (snd (inertialState t))).

(** A clock that advances by one second per reading. *)
Definition clock (n : nat) : Z := Z.of_nat n.

(** [checkSample] at the epoch 100 s, with test points 10 s apart. *)
Definition run (numTests : Z) (verbose : bool) :=
  checkSample (num := exactZ) (lib := lib) clock 0%nat 100%Z satellite context
    None numTests 10%Z verbose.

(** Two reference epochs, three test points each. *)
Definition args : Args Z :=
  {| sample_points := 2; step := 15%Z; verbose := false; inertial_frame := gcrf;
     tests_per_sample := 3; test_step := 10%Z |}.

End Synthetic.

(** ** A polar flight on binary64 *)

(** Collaborators for runs on [binary64].  A date is a binary64 count
    of seconds: shifting adds and the duration subtracts, each with its
    rounding.  The satellite moves along the polar axis, which a
    rotation about +K leaves in place, so a state is a position and a
    velocity along +K and every transform leaves it as it is. *)
Module Polar.

Local Open Scope float_scope.

Definition pv : Type := float * float.

Definition PI : float := 0x1.921fb54442d18p+1.

Definition lib : Orekit float := {|
  AbsoluteDate := float;
  Frame := Synthetic.frame;
  Transform := unit;
  PVCoordinates := pv;
  Vector3D := float;
  Rotation := unit;
  shiftedBy := fun d x => d + x;
  durationFrom := fun a b => a - b;
  getTransformTo := fun _ _ _ => tt;
  IDENTITY := tt;
  Transform_of := fun _ _ => tt;
  transformPVCoordinates := fun _ s => s;
  Rotation_of := fun _ _ _ => tt;
  PLUS_K := 1;
  WGS84_EARTH_ANGULAR_VELOCITY := 0x1.31da7d157db65p-14;
  getPosition := fst;
  getVelocity := snd;
  distance := fun a b => abs (a - b);
  angle := fun a b =>
    if PrimFloat.ltb 0 (a * b) then 0
    else if PrimFloat.ltb (a * b) 0 then PI else PrimFloat.nan;
  toDegrees := fun a => a * (180 / PI)
|}.

(** Position [7 + 2 t] and velocity 2 along +K, in every frame. *)
Definition satellite (t : float) (f : Synthetic.frame) : pv := (7 + 2 * t, 2).

(** A clock that advances by one second per reading. *)
Definition clock (n : nat) : float := float_of_int (Z.of_nat n).

(** Test points a tenth of a second apart; the two reference epochs of
    [fine] are 0 s and 0.6 s. *)
Definition tenth : float := 0x1.999999999999ap-4.

Definition fine : Args float :=
  {| sample_points := 2; step := 0x1.47ae147ae147bp-7; verbose := false;
     inertial_frame := gcrf; tests_per_sample := 2; test_step := tenth |}.

(** Test points ten seconds apart; the reference epochs of [coarse] are
    0 s and 900 s. *)
Definition coarse : Args float :=
  {| sample_points := 2; step := 15; verbose := false;
     inertial_frame := gcrf; tests_per_sample := 3; test_step := 10 |}.

(** [checkSample] at the epoch [date]. *)
Definition run (date : float) (numTests : Z) (testStep : float) :=
  checkSample (num := binary64) (lib := lib) clock 0%nat date satellite
    Synthetic.context None numTests testStep false.

End Polar.

(** * The rest of the program

    The accounting of the clock and of the buckets, Python text and
    paths, [download] of [downloader.py], and [loadTle] and the entry
    guard of [main.py]. *)

From Stdlib Require String Ascii DecimalString.

(** ** Timing windows and bucket invariants *)

Section Accounting.

Context {F : Type} {num : PyFloat F}.

(** The durations added to [estTime] and to [actTime] by [n] iterations
    that start when the clock has been read [t] times: iteration [k]
    reads [eStart], [eStop], [aStart], [aStop] as readings
    [t + 4k], ..., [t + 4k + 3]. *)
Definition estWindows (clock : nat -> F) (t n : nat) : list F :=
  map (fun k => sub (clock (t + 4 * k + 1)%nat) (clock (t + 4 * k)%nat)) (seq 0 n).

Definition actWindows (clock : nat -> F) (t n : nat) : list F :=
  map (fun k => sub (clock (t + 4 * k + 3)%nat) (clock (t + 4 * k + 2)%nat)) (seq 0 n).

(** A bucket sits under the key of its own offset, its three
    accumulators hold the same number of values, and it is not empty. *)
Definition BucketOk (kb : Key * OffsetStatistics F) : Prop :=
  fst kb = str (stat_deltaTime (snd kb))
  /\ getN (stat_posError (snd kb)) = getN (stat_velMagError (snd kb))
  /\ getN (stat_velMagError (snd kb)) = getN (stat_velAngError (snd kb))
  /\ (0 < getN (stat_posError (snd kb)))%nat.

Definition DictOk (d : Dict (OffsetStatistics F)) : Prop :=
  NoDup (map fst d) /\ Forall BucketOk d.

(** The number of samples held by the buckets of a dictionary. *)
Definition stored (d : Dict (OffsetStatistics F)) : nat :=
  list_sum (map (fun b => getN (stat_posError b)) (dict_values d)).

(** The last line of a completed report. *)
Definition isPercentLine {D : Type} (l : Line D F) : bool :=
  match l with PercentImprovementLine _ => true | _ => false end.

End Accounting.

(** ** Python text *)

(** A Python [str] or [bytes] value: its characters in order. *)
Definition pystr : Type := list Ascii.ascii.

Definition lit (s : String.string) : pystr := String.list_ascii_of_string s.

Section Text.

Import Ascii String.
Local Open Scope char_scope.

Definition LF : ascii := "010".
Definition CR : ascii := "013".
Definition SEP : ascii := "/".

(** [str(i)] for an [int]. *)
Definition str_int (i : Z) : pystr :=
  lit (DecimalString.NilZero.string_of_int (Z.to_int i)).

(** [s.startswith("/")] and [s.endswith("/")]. *)
Definition startswith_sep (s : pystr) : bool :=
  match s with
  | c :: _ => Ascii.eqb c SEP
  | [] => false
  end.

Fixpoint endswith_sep (s : pystr) : bool :=
  match s with
  | [] => false
  | [c] => Ascii.eqb c SEP
  | _ :: s' => endswith_sep s'
  end.

(** [posixpath.basename]: what follows the last ["/"].  [cur] is the
    part of the path after the last ["/"] seen so far. *)
Fixpoint after_last_sep (cur p : pystr) : pystr :=
  match p with
  | [] => cur
  | c :: p' => if Ascii.eqb c SEP then after_last_sep p' p' else after_last_sep cur p'
  end.

Definition basename (p : pystr) : pystr := after_last_sep p p.

(** [posixpath.join]: a component that starts with ["/"] replaces what
    was joined before it; otherwise it is appended, after a ["/"] unless
    the path so far is empty or ends with one. *)
Definition join_step (path b : pystr) : pystr :=
  if startswith_sep b then b
  else match path with
       | [] => path ++ b
       | _ => if endswith_sep path then path ++ b else path ++ SEP :: b
       end.

Definition join (a : pystr) (p : list pystr) : pystr := fold_left join_step p a.

(** [bytes.splitlines()]: the lines of a text, without their line
    breaks; a line ends at ["\n"], ["\r\n"] or ["\r"], and a text that
    ends with a line break has no empty last line.  [cur] is the line
    read so far. *)
Fixpoint splitlines_from (cur s : pystr) : list pystr :=
  match s with
  | [] => match cur with [] => [] | _ => [cur] end
  | c :: s' =>
      if Ascii.eqb c LF then cur :: splitlines_from [] s'
      else if Ascii.eqb c CR then
        match s' with
        | c' :: s'' =>
            if Ascii.eqb c' LF then cur :: splitlines_from [] s''
            else cur :: splitlines_from [] s'
        | [] => cur :: splitlines_from [] s'
        end
      else splitlines_from (cur ++ [c]) s'
  end.

Definition splitlines (s : pystr) : list pystr := splitlines_from [] s.

(** [needle in hay] on text: [needle] occurs in [hay]. *)
Fixpoint is_prefix (a s : pystr) : bool :=
  match a, s with
  | [], _ => true
  | x :: a', y :: s' => Ascii.eqb x y && is_prefix a' s'
  | _ :: _, [] => false
  end.

Fixpoint contains (hay needle : pystr) : bool :=
  is_prefix needle hay
  || match hay with
     | [] => false
     | _ :: hay' => contains hay' needle
     end.

(** Line 224 of [main.py]: [if __name__ in "__main__"], the test under
    which the file runs [main()]. *)
Definition entry_guard (name : pystr) : bool := contains (lit "__main__") name.

(** A character that ends a line. *)
Definition isLineBreak (c : ascii) : bool := Ascii.eqb c LF || Ascii.eqb c CR.

Definition noSep (s : pystr) : Prop := Forall (fun c => Ascii.eqb c SEP = false) s.

Definition noLineBreak (s : pystr) : Prop :=
  Forall (fun c => isLineBreak c = false) s.

Definition countBreaks (s : pystr) : nat := List.length (filter isLineBreak s).

(** The two ways a line of a response ends. *)
Definition isLineEnd (e : pystr) : Prop := e = [LF] \/ e = [CR; LF].

End Text.

(** ** The host: files and the network *)

(** A request as [requests.get] is called: the URL, the [stream] flag
    and the headers. *)
Record Request := {
  req_url : pystr;
  req_stream : bool;
  req_headers : list (pystr * pystr)
}.

(** What the program uses of a response: [status_code], [content] and
    [iter_content(chunk_size)]. *)
Record Response := {
  status_code : Z;
  content : pystr;
  iter_content : Z -> list pystr
}.

(** The operating system and the network, as far as the program calls
    them.  [os_makedirs] and [open_wb] give [None] when they raise
    [OSError].  A request is taken to be answered, the chunks of an
    answer to arrive and a write to succeed: a run in which one of
    these raises is outside the model.  The answer to a request may depend on how many requests
    were sent before.  [file_content] is what a file holds; the program
    never reads a file, the facts below use it to say what was written. *)
Class Host := {
  FS : Type;
  os_path_exists : FS -> pystr -> bool;
  os_makedirs : FS -> pystr -> option FS;
  open_wb : FS -> pystr -> option FS;
  fd_write : FS -> pystr -> pystr -> FS;
  file_content : FS -> pystr -> option pystr;
  sys_path_0 : pystr;
  requests_get : nat -> Request -> Response
}.

Inductive Exn :=
| RuntimeError (msg : pystr)
| IndexError
| OSError.

Inductive Result (A : Type) :=
| Ok (a : A)
| Raise (e : Exn).

Arguments Ok {A} a.
Arguments Raise {A} e.

Section HostProgram.

Import Ascii String.

Context {host : Host}.

(** The state of the host during a run: the files, the lines printed
    and the requests sent, oldest first. *)
Record World := {
  files : FS;
  stdout : list pystr;
  sent : list Request
}.

(** The headers that both requests of the program carry. *)
Definition HEADERS : list (pystr * pystr) :=
  [ (lit "accept", lit "*/*");
    (lit "User-Agent",
     lit "Mozilla/5.0 (Macintosh; Intel Mac OS X 10_15_3) AppleWebKit/537.36 (KHTML, like Gecko) Chrome/99.0.4844.84 Safari/537.36") ].

(** [requests.get(url, stream=..., headers=...)]: the request is logged
    and answered. *)
Definition send (req : Request) (w : World) : Response * World :=
  (requests_get (List.length (sent w)) req,
   {| files := files w; stdout := stdout w; sent := sent w ++ [req] |}).

Definition print (line : pystr) (w : World) : World :=
  {| files := files w; stdout := stdout w ++ [line]; sent := sent w |}.

(** [downloader.py], lines 36-40: the chunks are written in order and
    [sz] grows by [chunk_size] per chunk. *)
Definition write_chunks (dest : pystr) (chunk_size : Z) (chunks : list pystr)
    (fs : FS) : FS * Z :=
  fold_left
    (fun (st : FS * Z) (chunk : pystr) =>
       (fd_write (fst st) dest chunk, (snd st + chunk_size)%Z))
    chunks (fs, 0%Z).

(** [downloader.py], line 22. *)
Definition destination (url dataDir : pystr) : pystr :=
  join sys_path_0 [dataDir; basename url].

(** [download(url, dataDir, chunk_size)] of [downloader.py]. *)
Definition download (url dataDir : pystr) (chunk_size : Z) (w : World)
  : Result pystr * World :=
  let dest := destination url dataDir in
  if os_path_exists (files w) dest then (Ok dest, w)
  else
    match (if os_path_exists (files w) dataDir then Some (files w)
           else os_makedirs (files w) dataDir) with
    | None => (Raise OSError, w)
    | Some fs1 =>
        let w1 := {| files := fs1; stdout := stdout w; sent := sent w |} in
        let (r, w2) :=
          send {| req_url := url; req_stream := true; req_headers := HEADERS |} w1 in
        let w3 := print (url ++ lit " ... " ++ str_int (status_code r)) w2 in
        match open_wb (files w3) dest with
        | None => (Raise OSError, w3)
        | Some fs2 =>
            let (fs3, sz) :=
              write_chunks dest chunk_size (iter_content r chunk_size) fs2 in
            (Ok dest,
             print (str_int sz)
               {| files := fs3; stdout := stdout w3; sent := sent w3 |})
        end
    end.

(** [initOrekitData] of [main.py] up to [setup_orekit_curdir], which
    receives the path returned here. *)
Definition OREKIT_DATA_URL : pystr :=
  lit "https://gitlab.orekit.org/orekit/orekit-data/-/archive/master/orekit-data-master.zip".

Definition initOrekitData_download (w : World) : Result pystr * World :=
  download OREKIT_DATA_URL (lit "data") 128 w.

(** [loadTle], lines 40-49.  [mkTLE l1 l2] stands for
    [TLE(l1, l2, context.getTimeScales().getUTC())]. *)
Definition tle_url (catnr : Z) : pystr :=
  lit "https://celestrak.com/NORAD/elements/gp.php?CATNR=" ++ str_int catnr
  ++ lit "&FORMAT=TLE".

Definition loadTle {T : Type} (mkTLE : pystr -> pystr -> T) (catnr : Z)
    (w : World) : Result T * World :=
  let (r, w1) :=
    send {| req_url := tle_url catnr; req_stream := false;
            req_headers := HEADERS |} w in
  if negb (status_code r =? 200)%Z
  then (Raise (RuntimeError
                 (lit "failed to load TLE for catalog number " ++ str_int catnr)),
        w1)
  else
    let data := splitlines (content r) in
    match nth_error data 1, nth_error data 2 with
    | Some line1, Some line2 => (Ok (mkTLE line1 line2), w1)
    | _, _ => (Raise IndexError, w1)
    end.

(** The request that [download] sends. *)
Definition downloadRequest (url : pystr) : Request :=
  {| req_url := url; req_stream := true; req_headers := HEADERS |}.

(** The request that [loadTle] sends. *)
Definition tleRequest (catnr : Z) : Request :=
  {| req_url := tle_url catnr; req_stream := false; req_headers := HEADERS |}.

(** Contracts of the file system, for the facts that need them: a file
    that was opened for writing exists and is empty; writing to it keeps
    every path in existence and appends to its content. *)
Definition OpenCreatesLaw : Prop :=
  forall fs fs' p,
    open_wb fs p = Some fs' ->
    os_path_exists fs' p = true /\ file_content fs' p = Some [].

Definition WriteKeepsLaw : Prop :=
  forall fs p q c, os_path_exists fs q = true ->
                   os_path_exists (fd_write fs p c) q = true.

Definition WriteAppendsLaw : Prop :=
  forall fs p c old,
    file_content fs p = Some old ->
    file_content (fd_write fs p c) p = Some (old ++ c).

End HostProgram.

Arguments World host : clear implicits.

(** ** A host in memory *)

(** Files for test runs: a path is absent, a directory, or a file with
    its content.  Every directory can be made and every file opened.
    The server cuts its answers into chunks of the size asked for. *)
Module MemoryHost.

Import Ascii String.

Inductive entry := Directory | File (content : pystr).

Definition fs : Type := pystr -> option entry.

Fixpoint pystr_eqb (a b : pystr) : bool :=
  match a, b with
  | [], [] => true
  | x :: a', y :: b' => Ascii.eqb x y && pystr_eqb a' b'
  | _, _ => false
  end.

Definition update (f : fs) (p : pystr) (e : entry) : fs :=
  fun q => if pystr_eqb q p then Some e else f q.

Definition empty : fs := fun _ => None.

Definition exists_ (f : fs) (p : pystr) : bool :=
  match f p with Some _ => true | None => false end.

Definition write (f : fs) (p c : pystr) : fs :=
  match f p with
  | Some (File old) => update f p (File (old ++ c))
  | _ => f
  end.

Definition read (f : fs) (p : pystr) : option pystr :=
  match f p with
  | Some (File c) => Some c
  | _ => None
  end.

(** The pieces of [chunk_size] characters of a text ([fuel] bounds the
    number of pieces). *)
Fixpoint chunks (fuel : nat) (size : nat) (s : pystr) : list pystr :=
  match fuel, s with
  | O, _ => []
  | _, [] => []
  | S fuel', _ => firstn size s :: chunks fuel' size (skipn size s)
  end.

Definition name_line : pystr := lit "ISS (ZARYA)".

Definition line1 : pystr :=
  lit "1 25544U 98067A   22100.50000000  .00000000  00000-0  00000-0 0  9990".

Definition line2 : pystr :=
  lit "2 25544  51.6400 100.0000 0004000  50.0000 310.0000 15.50000000 00000".

Definition body : pystr :=
  name_line ++ [CR; LF] ++ line1 ++ [CR; LF] ++ line2 ++ [CR; LF].

Definition respond (status : Z) (text : pystr) : Response :=
  {| status_code := status;
     content := text;
     iter_content := fun size => chunks (List.length text) (Z.to_nat size) text |}.

(** The first request is answered with the element set, the second
    with a one-line message under status 200, the others with 404. *)
Definition answer (n : nat) (req : Request) : Response :=
  match n with
  | 0%nat => respond 200 body
  | 1%nat => respond 200 (lit "No GP data found")
  | _ => respond 404 (lit "Not Found")
  end.

(** The host; when the disk is not [writable] no file can be opened
    for writing. *)
Definition hostWith (writable : bool) : Host := {|
  FS := fs;
  os_path_exists := exists_;
  os_makedirs := fun f p => Some (update f p Directory);
  open_wb := fun f p => if writable then Some (update f p (File [])) else None;
  fd_write := write;
  file_content := read;
  sys_path_0 := lit "/home/user/fast-eci/src";
  requests_get := answer
|}.

Definition host : Host := hostWith true.

Definition start : World host := @Build_World host empty [] [].

(** The world after one request and after two. *)
Definition request : Request :=
  {| req_url := lit "https://example.org/"; req_stream := false; req_headers := [] |}.

Definition second : World host := @Build_World host empty [] [request].

Definition third : World host := @Build_World host empty [] [request; request].

Definition archive : pystr := lit "https://example.org/files/data.zip".

End MemoryHost.

(** * Facts *)

(** ** Lists and ranges *)

Lemma range_length (a b : Z) : length (range a b) = Z.to_nat (b - a).
Proof. unfold range. now rewrite length_map, length_seq. Qed.

Lemma nth_error_range (a b : Z) (i : nat) :
  (Z.of_nat i < b - a)%Z -> nth_error (range a b) i = Some (a + Z.of_nat i)%Z.
Proof.
  intros Hi. unfold range.
  rewrite nth_error_map, nth_error_seq.
  destruct (Nat.ltb_spec i (Z.to_nat (b - a))) as [_ | Hge]; [reflexivity | lia].
Qed.

Lemma in_range (a b k : Z) : In k (range a b) -> (a <= k < b)%Z.
Proof.
  unfold range. rewrite in_map_iff. intros (n & <- & Hn).
  apply in_seq in Hn. lia.
Qed.

Lemma range_empty (a : Z) : range a a = [].
Proof. unfold range. now rewrite Z.sub_diag. Qed.

(** A concatenation of blocks of [n] elements is indexed block by block. *)
Lemma nth_error_blocks {A B : Type} (f : A -> list B) (n : nat) :
  (forall x, length (f x) = n) ->
  forall (l : list A) (i j : nat),
    (j < n)%nat ->
    nth_error (flat_map f l) (n * i + j)
    = match nth_error l i with
      | Some x => nth_error (f x) j
      | None => None
      end.
Proof.
  intros Hn l. induction l as [| x l IH]; intros i j Hj.
  - simpl. destruct i; now destruct (n * _ + j)%nat.
  - destruct i as [| i]; simpl flat_map.
    + rewrite Nat.mul_0_r. simpl. apply nth_error_app1. now rewrite Hn.
    + rewrite nth_error_app2 by (rewrite Hn; lia).
      rewrite Hn. simpl nth_error.
      replace (n * S i + j - n)%nat with (n * i + j)%nat by lia.
      now apply IH.
Qed.

(** ** The loop of checkSample *)

Section CheckSampleFacts.

Context {F : Type} {num : PyFloat F} {lib : Orekit F}.

Variables (clock : Clock F) (date : AbsoluteDate) (pvProv : PVCoordinatesProvider).
Variables (inertialFrame ecef : Frame) (baseline : Transform) (verbose : bool).

Lemma checkSample_loop_results (pts : list AbsoluteDate) (st : LoopState) :
  results (fold_left
     (checkSample_step clock date pvProv inertialFrame ecef baseline verbose)
     pts st)
  = results st
    ++ map (fun p => sampleOf (evalPoint date pvProv inertialFrame ecef baseline p))
         pts.
Proof.
  revert st. induction pts as [| p pts IH]; intros st; simpl.
  - now rewrite app_nil_r.
  - rewrite IH. simpl. now rewrite <- app_assoc.
Qed.

Lemma checkSample_loop_printed (pts : list AbsoluteDate) (st : LoopState) :
  printed (fold_left
     (checkSample_step clock date pvProv inertialFrame ecef baseline verbose)
     pts st)
  = printed st
    ++ flat_map
         (fun p =>
            if verbose
            then verboseLines date
                   (evalPoint date pvProv inertialFrame ecef baseline p)
            else [])
         pts.
Proof.
  revert st. induction pts as [| p pts IH]; intros st; simpl.
  - now rewrite app_nil_r.
  - rewrite IH. simpl. now rewrite <- app_assoc.
Qed.

Lemma checkSample_loop_ticks (pts : list AbsoluteDate) (st : LoopState) :
  ticks (fold_left
     (checkSample_step clock date pvProv inertialFrame ecef baseline verbose)
     pts st) = (4 * length pts + ticks st)%nat.
Proof.
  revert st. induction pts as [| p pts IH]; intros st; simpl.
  - reflexivity.
  - rewrite IH. simpl. lia.
Qed.

End CheckSampleFacts.

Section CheckSampleResults.

Context {F : Type} {num : PyFloat F} {lib : Orekit F}.

Lemma checkSample_results clock t0 date pvProv context inertialFrame numTests
    testStep verbose :
  results (checkSample clock t0 date pvProv context inertialFrame numTests
             testStep verbose)
  = map (fun p => sampleOf (localsAt date pvProv context inertialFrame p))
        (testPoints date numTests testStep).
Proof. unfold checkSample. now rewrite checkSample_loop_results. Qed.

Lemma checkSample_printed clock t0 date pvProv context inertialFrame numTests
    testStep verbose :
  printed (checkSample clock t0 date pvProv context inertialFrame numTests
             testStep verbose)
  = flat_map
      (fun p => if verbose
                then verboseLines date (localsAt date pvProv context inertialFrame p)
                else [])
      (testPoints date numTests testStep).
Proof. unfold checkSample. now rewrite checkSample_loop_printed. Qed.

Lemma nth_error_testPoints date numTests testStep (i : nat) :
  (Z.of_nat i < numTests)%Z ->
  nth_error (testPoints date numTests testStep) i
  = Some (shiftedBy date (mul (of_int (Z.of_nat i)) testStep)).
Proof.
  intros Hi. unfold testPoints.
  rewrite nth_error_map, nth_error_range by lia. reflexivity.
Qed.

Lemma checkSample_nth clock t0 date pvProv context inertialFrame numTests
    testStep verbose (i : nat) :
  (Z.of_nat i < numTests)%Z ->
  nth_error
    (results (checkSample clock t0 date pvProv context inertialFrame numTests
                testStep verbose)) i
  = Some (sampleOf (localsAt date pvProv context inertialFrame
                      (shiftedBy date (mul (of_int (Z.of_nat i)) testStep)))).
Proof.
  intros Hi. rewrite checkSample_results, nth_error_map.
  now rewrite nth_error_testPoints.
Qed.

End CheckSampleResults.

(** ** The approximate transform *)

Section Estimator.

Context {F : Type} {num : PyFloat F} {lib : Orekit F}.

(** C1.  At a test point whose offset [dt] from the reference epoch is
    greater than zero, the estimated Earth-fixed state is the baseline
    transform (the exact transform at the reference epoch) applied to
    the inertial state, followed by the transform built at the test
    point from the rotation about +K by [dt * omega] in the
    frame-transform convention; the sample that [checkSample] returns for
    that point measures the provider's Earth-fixed state against it. *)
Theorem estimate_positive_offset :
  forall (clock : Clock F) (t0 : nat) (date : AbsoluteDate)
         (pvProv : PVCoordinatesProvider) (context : DataContext Frame)
         (inertialFrame : option Frame) (numTests : Z) (testStep : F)
         (verbose : bool) (i : nat),
    let inertial := frameOrDefault context inertialFrame in
    let ecef := ecefOf context in
    let baseline := getTransformTo inertial ecef date in
    let point := shiftedBy date (mul (of_int (Z.of_nat i)) testStep) in
    let dt := durationFrom point date in
    let rotation :=
      Rotation_of PLUS_K (mul dt WGS84_EARTH_ANGULAR_VELOCITY) FRAME_TRANSFORM in
    let est :=
      transformPVCoordinates (Transform_of point rotation)
        (transformPVCoordinates baseline (pvProv point inertial)) in
    (Z.of_nat i < numTests)%Z ->
    ltb zero dt = true ->
    estimate baseline point dt (pvProv point inertial) = est
    /\ nth_error
         (results (checkSample clock t0 date pvProv context inertialFrame
                     numTests testStep verbose)) i
       = Some {| deltaTime := dt;
                 posError :=
                   distance (getPosition (pvProv point ecef)) (getPosition est);
                 velMagError :=
                   distance (getVelocity (pvProv point ecef)) (getVelocity est);
                 velAngError :=
                   toDegrees (angle (getVelocity (pvProv point ecef))
                                    (getVelocity est)) |}.
Proof.
  intros clock t0 date pvProv context inertialFrame numTests testStep verbose i
         inertial ecef baseline point dt rotation est Hi Hdt.
  assert (Hest : estimate baseline point dt (pvProv point inertial) = est).
  { unfold estimate, incremental. now rewrite Hdt. }
  split; [exact Hest |].
  rewrite checkSample_nth by exact Hi.
  unfold localsAt, evalPoint, sampleOf; cbn.
  fold inertial ecef baseline point dt. now rewrite Hest.
Qed.

(** C2.  At an offset [dt <= 0] the incremental transform is the
    identity, so the estimate is the baseline transform applied alone;
    this covers [dt = 0].  The same holds of the locals of the loop of
    [checkSample] at every point that is not later than the reference
    epoch. *)
Theorem estimate_nonpositive_offset :
  IdentityLaw -> NonPositiveLaw ->
  forall (baseline : Transform) (point : AbsoluteDate) (dt : F)
         (pv : PVCoordinates),
    leb dt zero = true ->
    incremental point dt = IDENTITY
    /\ estimate baseline point dt pv = transformPVCoordinates baseline pv
    /\ forall (date : AbsoluteDate) (pvProv : PVCoordinatesProvider)
              (inertial ecef : Frame),
         durationFrom point date = dt ->
         let l := evalPoint date pvProv inertial ecef baseline point in
         fixedTx l = IDENTITY
         /\ estimatedFixedPv l
            = transformPVCoordinates baseline (pvProv point inertial).
Proof.
  intros Hid Hle baseline point dt pv Hdt.
  assert (Hinc : incremental point dt = IDENTITY).
  { unfold incremental. now rewrite (Hle _ Hdt). }
  assert (Hest : forall s, estimate baseline point dt s
                           = transformPVCoordinates baseline s).
  { intros s. unfold estimate. rewrite Hinc. apply Hid. }
  split; [exact Hinc |]. split; [apply Hest |].
  intros date pvProv inertial ecef Hdur l. subst l. cbn.
  rewrite Hdur. split; [exact Hinc | apply Hest].
Qed.

(** C3.  The first test point of [checkSample] is the reference epoch,
    at offset zero.  When the state provider agrees there with the exact
    transform, its sample has offset and all three errors equal to
    zero.  What is asked of the library is asked at this epoch and of
    the provider's own state [truth]: shifting by [float(0) * testStep]
    gives the epoch, the duration from the epoch to itself is zero, the
    identity transform leaves [truth] as it is, and of its position and
    velocity each is at distance zero from, and its velocity at angle
    zero to, itself. *)
Theorem zero_offset_sample_exact :
  forall (clock : Clock F) (t0 : nat) (date : AbsoluteDate)
         (pvProv : PVCoordinatesProvider) (context : DataContext Frame)
         (inertialFrame : option Frame) (numTests : Z) (testStep : F)
         (verbose : bool),
    let inertial := frameOrDefault context inertialFrame in
    let ecef := ecefOf context in
    let truth := pvProv date ecef in
    shiftedBy date (mul (of_int 0) testStep) = date ->
    durationFrom date date = zero ->
    ltb zero zero = false ->
    transformPVCoordinates IDENTITY truth = truth ->
    ConsistentAt pvProv inertial ecef date ->
    distance (getPosition truth) (getPosition truth) = zero ->
    distance (getVelocity truth) (getVelocity truth) = zero ->
    toDegrees (angle (getVelocity truth) (getVelocity truth)) = zero ->
    (0 < numTests)%Z ->
    nth_error
      (results (checkSample clock t0 date pvProv context inertialFrame
                  numTests testStep verbose)) 0
    = Some {| deltaTime := zero; posError := zero;
              velMagError := zero; velAngError := zero |}.
Proof.
  intros clock t0 date pvProv context inertialFrame numTests testStep verbose
         inertial ecef truth Hshift Hdur Hlt Hid Hcons Hpos Hvel Hang Hn.
  rewrite checkSample_nth by exact Hn.
  change (Z.of_nat 0) with 0%Z. rewrite Hshift.
  unfold localsAt, evalPoint, sampleOf; cbn.
  rewrite Hdur. unfold estimate, incremental. rewrite Hlt.
  fold inertial ecef. red in Hcons. rewrite <- Hcons. fold truth.
  now rewrite Hid, Hpos, Hvel, Hang.
Qed.

(** C4.  The check value [deltaActVelAng] is computed from the same two
    vectors as [deltaVelAng], the provider's Earth-fixed velocity and
    the estimated velocity, and the actual-transform velocity does not
    enter it: the two values are equal at every test point, and in a
    verbose run the eighth line printed for a sample repeats the value
    of the fifth, which is the sample's [velAngError]. *)
Theorem check_velocity_angle_repeats_estimate :
  forall (clock : Clock F) (t0 : nat) (date : AbsoluteDate)
         (pvProv : PVCoordinatesProvider) (context : DataContext Frame)
         (inertialFrame : option Frame) (numTests : Z) (testStep : F),
    let cs := checkSample clock t0 date pvProv context inertialFrame
                numTests testStep true in
    (forall point,
       let l := localsAt date pvProv context inertialFrame point in
       deltaActVelAng l = deltaVelAng l
       /\ deltaActVelAng l
          = toDegrees (angle (getVelocity (fixedPv l))
                             (getVelocity (estimatedFixedPv l))))
    /\ forall i : nat,
         nth_error (printed cs) (8 * i + 4)
         = option_map (fun r => VelAngErrorLine (velAngError r))
             (nth_error (results cs) i)
         /\ nth_error (printed cs) (8 * i + 7)
            = option_map (fun r => CheckVelAngErrorLine (velAngError r))
                (nth_error (results cs) i).
Proof.
  intros clock t0 date pvProv context inertialFrame numTests testStep cs.
  split; [intros point; split; reflexivity |].
  intros i. subst cs.
  rewrite checkSample_printed, checkSample_results.
  rewrite !(nth_error_blocks _ (n := 8)) by (reflexivity || lia).
  rewrite nth_error_map.
  destruct (nth_error (testPoints date numTests testStep) i); split; reflexivity.
Qed.

(** C10.  [checkSample] returns one sample per test point, in the order
    of the offsets [0, 1, ..., numTests - 1]: the list has [numTests]
    entries and the k-th carries the offset of the k-th test point.  With
    [numTests = 0] the list is empty and both accumulated times are the
    initial zero. *)
Theorem checkSample_one_sample_per_point :
  forall (clock : Clock F) (t0 : nat) (date : AbsoluteDate)
         (pvProv : PVCoordinatesProvider) (context : DataContext Frame)
         (inertialFrame : option Frame) (testStep : F) (verbose : bool),
    (forall numTests : Z,
       let cs := checkSample clock t0 date pvProv context inertialFrame
                   numTests testStep verbose in
       length (results cs) = Z.to_nat numTests
       /\ map (@deltaTime F) (results cs)
          = map (fun i => durationFrom
                            (shiftedBy date (mul (of_int i) testStep)) date)
                (range 0 numTests)
       /\ results cs
          = map (fun i => sampleOf
                            (localsAt date pvProv context inertialFrame
                               (shiftedBy date (mul (of_int i) testStep))))
                (range 0 numTests))
    /\ (let cs := checkSample clock t0 date pvProv context inertialFrame
                    0 testStep verbose in
        results cs = [] /\ estTime cs = zero /\ actTime cs = zero).
Proof.
  intros clock t0 date pvProv context inertialFrame testStep verbose.
  split.
  - intros numTests cs. subst cs. rewrite checkSample_results.
    unfold testPoints. rewrite !length_map, range_length, Z.sub_0_r, !map_map.
    repeat split; reflexivity.
  - unfold checkSample, testPoints. rewrite range_empty. cbn. auto.
Qed.

End Estimator.

(** ** The dictionary *)

Section DictFacts.

Context {F : Type} {num : PyFloat F} {V : Type}.

Lemma dict_get_set_same (k : Key) (v : V) (d : Dict V) :
  dict_get k (dict_set k v d) = Some v.
Proof.
  induction d as [| [k' v'] d IH]; simpl.
  - now destruct (key_eq_dec k k).
  - destruct (key_eq_dec k k') as [-> | Hne]; simpl.
    + now destruct (key_eq_dec k' k').
    + now destruct (key_eq_dec k k').
Qed.

Lemma dict_get_set_other (k k' : Key) (v : V) (d : Dict V) :
  k <> k' -> dict_get k (dict_set k' v d) = dict_get k d.
Proof.
  intros Hne. induction d as [| [k'' v''] d IH]; simpl.
  - destruct (key_eq_dec k k'); [contradiction | reflexivity].
  - destruct (key_eq_dec k' k'') as [-> | Hne']; simpl.
    + destruct (key_eq_dec k k''); [contradiction | reflexivity].
    + destruct (key_eq_dec k k''); [reflexivity | exact IH].
Qed.

(** A key that is absent goes to the end. *)
Lemma dict_set_absent (k : Key) (v : V) (d : Dict V) :
  dict_get k d = None -> dict_set k v d = d ++ [(k, v)].
Proof.
  induction d as [| [k' v'] d IH]; simpl; [reflexivity |].
  destruct (key_eq_dec k k'); [discriminate |].
  intros H. now rewrite IH.
Qed.

(** Replacing the value of a key keeps every projection of the values
    on which the old and the new value agree. *)
Lemma dict_set_present {B : Type} (f : V -> B) (k : Key) (v r : V) (d : Dict V) :
  dict_get k d = Some r -> f v = f r ->
  map f (dict_values (dict_set k v d)) = map f (dict_values d).
Proof.
  unfold dict_values. induction d as [| [k' v'] d IH]; simpl; [discriminate |].
  destruct (key_eq_dec k k'); simpl.
  - intros [= ->] ->. reflexivity.
  - intros Hget Hf. now rewrite IH.
Qed.

End DictFacts.

(** ** Aggregation *)

Section AggregateFacts.

Context {F : Type} {num : PyFloat F}.

Lemma hasKey_true (k : Key) (d : SampleResult F) :
  hasKey k d = true <-> str (deltaTime d) = k.
Proof. unfold hasKey. destruct (key_eq_dec _ k); split; congruence. Qed.

(** The bucket under [k] after [data] is aggregated into a dictionary is
    the bucket it had, extended by the samples of [data] with key [k]. *)
Lemma dict_get_aggregate (k : Key) (data : list (SampleResult F))
    (d : Dict (OffsetStatistics F)) :
  dict_get k (aggregate d data) = extend (dict_get k d) (samplesWithKey k data).
Proof.
  unfold aggregate, samplesWithKey. revert d.
  induction data as [| s data IH]; intros d; simpl.
  - now destruct (dict_get k d) as [[] |]; simpl; rewrite ?app_nil_r.
  - rewrite IH. unfold add_sample, hasKey.
    destruct (key_eq_dec (str (deltaTime s)) k) as [<- | Hne].
    + destruct (dict_get (str (deltaTime s)) d) as [r |];
        rewrite dict_get_set_same; simpl.
      * unfold addValue. now rewrite <- !app_assoc.
      * reflexivity.
    + destruct (dict_get (str (deltaTime s)) d) as [r |];
        now rewrite dict_get_set_other by congruence.
Qed.

Lemma dict_get_aggregate_empty (k : Key) (data : list (SampleResult F)) :
  dict_get k (aggregate [] data) = bucketOf k data.
Proof. apply dict_get_aggregate. Qed.

(** Every sample that was aggregated has a bucket under its key, and
    buckets are never removed. *)
Lemma aggregate_has_key (data : list (SampleResult F))
    (d : Dict (OffsetStatistics F)) (s : SampleResult F) :
  In s data -> dict_get (str (deltaTime s)) (aggregate d data) <> None.
Proof.
  intros Hin. rewrite dict_get_aggregate.
  assert (Hf : In s (samplesWithKey (str (deltaTime s)) data)).
  { apply filter_In. split; [exact Hin | now apply hasKey_true]. }
  destruct (dict_get _ d); destruct (samplesWithKey _ data);
    simpl; try discriminate. destruct Hf.
Qed.

Lemma aggregate_keeps_key (data : list (SampleResult F))
    (d : Dict (OffsetStatistics F)) (k : Key) :
  dict_get k d <> None -> dict_get k (aggregate d data) <> None.
Proof.
  intros Hk. rewrite dict_get_aggregate.
  destruct (dict_get k d); [discriminate | contradiction].
Qed.

Lemma offsets_add_sample (d : Dict (OffsetStatistics F)) (s : SampleResult F) :
  offsets (add_sample d s)
  = match dict_get (str (deltaTime s)) d with
    | None => offsets d ++ [deltaTime s]
    | Some _ => offsets d
    end.
Proof.
  unfold add_sample, offsets.
  destruct (dict_get (str (deltaTime s)) d) as [r |] eqn:Hget.
  - now apply dict_set_present with (r := r).
  - rewrite dict_set_absent by exact Hget.
    unfold dict_values. now rewrite !map_app.
Qed.

End AggregateFacts.

Lemma samplesWithKey_perm {F : Type} {num : PyFloat F} (k : Key)
    (l1 l2 : list (SampleResult F)) :
  Permutation l1 l2 -> Permutation (samplesWithKey k l1) (samplesWithKey k l2).
Proof.
  unfold samplesWithKey.
  induction 1; simpl; repeat destruct (hasKey k _); eauto using Permutation.
Qed.

(** ** Statistics of permuted stores *)

Section PermutationFacts.

Context {F : Type} {num : PyFloat F}.

Hypothesis add_comm : AddCommLaw.
Hypothesis add_assoc : AddAssocLaw.

Lemma fold_add_perm (l1 l2 : list F) :
  Permutation l1 l2 -> forall a, fold_left add l1 a = fold_left add l2 a.
Proof.
  induction 1 as [| x l1 l2 _ IH | x y l | l1 l2 l3 _ IH1 _ IH2]; intros a; simpl.
  - reflexivity.
  - apply IH.
  - f_equal. rewrite <- !add_assoc. f_equal. apply add_comm.
  - now rewrite IH1.
Qed.

Lemma total_perm (l1 l2 : list F) : Permutation l1 l2 -> total l1 = total l2.
Proof. intros H. now apply fold_add_perm. Qed.

Lemma getMean_perm (s1 s2 : DescriptiveStatistics) :
  Permutation s1 s2 -> getMean s1 = getMean s2.
Proof.
  intros H. unfold getMean, getN.
  rewrite (total_perm H), (Permutation_length H).
  destruct s1, s2; try reflexivity.
  - now apply Permutation_nil in H.
  - symmetry in H. now apply Permutation_nil in H.
Qed.

Lemma squaredDeviations_perm (s1 s2 : DescriptiveStatistics) :
  Permutation s1 s2 -> Permutation (squaredDeviations s1) (squaredDeviations s2).
Proof.
  intros H. unfold squaredDeviations. rewrite (getMean_perm H).
  now apply Permutation_map.
Qed.

Lemma getVariance_perm (s1 s2 : DescriptiveStatistics) :
  Permutation s1 s2 -> getVariance s1 = getVariance s2.
Proof.
  intros H. pose proof (Permutation_length H) as Hlen.
  pose proof (total_perm (squaredDeviations_perm H)) as Htot.
  unfold getVariance, getN. rewrite Htot, Hlen.
  destruct s1 as [| a [| b s1]], s2 as [| a' [| b' s2]];
    simpl in Hlen; try discriminate; reflexivity.
Qed.

Lemma getStandardDeviation_perm (s1 s2 : DescriptiveStatistics) :
  Permutation s1 s2 -> getStandardDeviation s1 = getStandardDeviation s2.
Proof.
  intros H. pose proof (Permutation_length H) as Hlen.
  unfold getStandardDeviation. rewrite (getVariance_perm H).
  destruct s1 as [| a [| b s1]], s2 as [| a' [| b' s2]];
    simpl in Hlen; try discriminate; reflexivity.
Qed.

Lemma meanStddev_perm (s1 s2 : DescriptiveStatistics) :
  Permutation s1 s2 -> meanStddev s1 = meanStddev s2.
Proof.
  intros H. unfold meanStddev.
  now rewrite (getMean_perm H), (getStandardDeviation_perm H).
Qed.

Lemma bucketOf_perm (k : Key) (l1 l2 : list (SampleResult F)) :
  Permutation l1 l2 ->
  option_map summary (bucketOf k l1) = option_map summary (bucketOf k l2).
Proof.
  intros H. unfold bucketOf.
  pose proof (samplesWithKey_perm k H) as Hf.
  destruct (samplesWithKey k l1) as [| d1 f1] eqn:E1,
           (samplesWithKey k l2) as [| d2 f2] eqn:E2.
  - reflexivity.
  - now apply Permutation_nil in Hf.
  - symmetry in Hf. now apply Permutation_nil in Hf.
  - unfold extend, option_map, summary.
    cbn [stat_posError stat_velMagError stat_velAngError].
    now rewrite (meanStddev_perm (Permutation_map (@posError F) Hf)),
                (meanStddev_perm (Permutation_map (@velMagError F) Hf)),
                (meanStddev_perm (Permutation_map (@velAngError F) Hf)).
Qed.

End PermutationFacts.

Section Aggregator.

Context {F : Type} {num : PyFloat F}.


End Aggregator.

(** ** Runs on binary64 *)

Section Binary64.

Open Scope float_scope.

(** C7.  Two reference epochs contribute one sample each at offset 30,
    with position errors 2.0 and 4.0: the dictionary then has the single
    bucket of offset 30, and its position-error mean is 3.0. *)
Theorem two_epochs_mean_three :
  forall (v1 a1 v2 a2 : float),
    let s1 := {| deltaTime := 30; posError := 2;
                 velMagError := v1; velAngError := a1 |} in
    let s2 := {| deltaTime := 30; posError := 4;
                 velMagError := v2; velAngError := a2 |} in
    let d := aggregate (num := binary64) (aggregate (num := binary64) [] [s1]) [s2] in
    exists r : OffsetStatistics float,
      dict_values d = [r]
      /\ dict_get (num := binary64) (Prim2SF 30) d = Some r
      /\ stat_deltaTime r = 30
      /\ getN (stat_posError r) = 2%nat
      /\ getMean (num := binary64) (stat_posError r) = 3.
Proof.
  intros v1 a1 v2 a2 s1 s2 d.
  exists {| stat_deltaTime := 30; stat_posError := [2; 4];
            stat_velMagError := [v1; v2]; stat_velAngError := [a1; a2] |}.
  repeat split; vm_compute; reflexivity.
Qed.

(** C5.  A run with no reference epoch ([--sample-points 0]) has
    accumulated an exact-path time of 0: it prints the two totals and
    then ends with [ZeroDivisionError]; no line about the percent
    improvement is printed. *)
Theorem no_samples_run_raises :
  forall (lib : Orekit float) (clock : Clock float) (step test_step : float)
         (verbose : bool) (inertial_frame : InertialChoice)
         (tests_per_sample : Z) (tleDate : AbsoluteDate)
         (propagator : PVCoordinatesProvider) (context : DataContext Frame),
    main (num := binary64) clock
      {| sample_points := 0; step := step; verbose := verbose;
         inertial_frame := inertial_frame;
         tests_per_sample := tests_per_sample; test_step := test_step |}
      tleDate propagator context
    = ([BlankLine; TotalTimeLine; HighFidelityLine 0; EstimatedLine 0],
       ZeroDivisionError).
Proof. intros. reflexivity. Qed.

(** On binary64 the order of arrival can change the last bit of a mean:
    equality of the statistics of permuted stores is a fact of exact
    addition. *)
Example binary64_mean_order :
  let tenth := 0x1.999999999999ap-4 in
  let fifth := 0x1.999999999999ap-3 in
  let three_tenths := 0x1.3333333333333p-2 in
  getMean (num := binary64) [tenth; fifth; three_tenths] = 0x1.999999999999bp-3
  /\ getMean (num := binary64) [three_tenths; fifth; tenth] = 0x1.9999999999999p-3.
Proof. split; vm_compute; reflexivity. Qed.

End Binary64.

(** ** Offsets and grouping keys *)

Section Offsets.

Context {F : Type} {num : PyFloat F} {lib : Orekit F}.

Lemma checkSample_offsets clock t0 date pvProv context inertialFrame numTests
    testStep verbose :
  ShiftDurationLaw ->
  map (@deltaTime F)
    (results (checkSample clock t0 date pvProv context inertialFrame numTests
                testStep verbose))
  = stepMultiples numTests testStep.
Proof.
  intros Hdur. rewrite checkSample_results.
  unfold testPoints, stepMultiples. rewrite !map_map.
  apply map_ext. intros i. cbn. apply Hdur.
Qed.

Lemma aggregate_app (d : Dict (OffsetStatistics F)) (l1 l2 : list (SampleResult F)) :
  aggregate (aggregate d l1) l2 = aggregate d (l1 ++ l2).
Proof. unfold aggregate. now rewrite fold_left_app. Qed.


End Offsets.

(** ** The order of the report *)

Lemma StronglySorted_app_remove {A : Type} (R : A -> A -> Prop)
    (a : list A) (x : A) (b : list A) :
  StronglySorted R (a ++ x :: b) -> StronglySorted R (a ++ b).
Proof.
  induction a as [| y a IH]; simpl; intros H.
  - now apply StronglySorted_inv in H.
  - apply StronglySorted_inv in H. destruct H as [Hs Hall].
    constructor; [now apply IH |].
    apply Forall_app in Hall. destruct Hall as [Ha Hxb].
    apply Forall_app. split; [exact Ha | now apply Forall_inv_tail in Hxb].
Qed.

Section ReportOrder.

Context {F : Type} {num : PyFloat F}.

Variable R : F -> F -> Prop.

(** Aggregating samples whose offsets continue the sorted sequence of
    the buckets leaves the buckets sorted. *)
Lemma offsets_aggregate_sorted (data : list (SampleResult F)) :
  forall d : Dict (OffsetStatistics F),
    StronglySorted R (offsets d ++ map (@deltaTime F) data) ->
    StronglySorted R (offsets (aggregate d data)).
Proof.
  induction data as [| s data IH]; intros d H; simpl in *.
  - now rewrite app_nil_r in H.
  - apply IH. rewrite offsets_add_sample.
    destruct (dict_get (str (deltaTime s)) d).
    + now apply StronglySorted_app_remove in H.
    + now rewrite <- app_assoc.
Qed.

(** Aggregating samples whose keys all have a bucket adds no bucket. *)
Lemma offsets_aggregate_known (data : list (SampleResult F)) :
  forall d : Dict (OffsetStatistics F),
    (forall s, In s data -> dict_get (str (deltaTime s)) d <> None) ->
    offsets (aggregate d data) = offsets d.
Proof.
  induction data as [| s data IH]; intros d Hknown; simpl; [reflexivity |].
  rewrite IH.
  - rewrite offsets_add_sample.
    destruct (dict_get (str (deltaTime s)) d) eqn:Hget; [reflexivity |].
    now destruct (Hknown s (or_introl eq_refl)).
  - intros s' Hs'. apply (aggregate_keeps_key [s]). apply Hknown. now right.
Qed.

End ReportOrder.

Section Report.

Context {F : Type} {num : PyFloat F} {lib : Orekit F}.

Lemma reportedOffsets_app (a b : list (Line AbsoluteDate F)) :
  reportedOffsets (a ++ b) = reportedOffsets a ++ reportedOffsets b.
Proof. apply flat_map_app. Qed.

Lemma reportedOffsets_report (d : Dict (OffsetStatistics F)) :
  reportedOffsets (flat_map reportLines (dict_values d)) = offsets d.
Proof.
  unfold offsets. induction (dict_values d) as [| r l IH]; simpl; [reflexivity |].
  now rewrite IH.
Qed.

Lemma reportedOffsets_checkSample clock t0 date pvProv context inertialFrame
    numTests testStep verbose :
  reportedOffsets
    (printed (checkSample clock t0 date pvProv context inertialFrame numTests
                testStep verbose)) = [].
Proof.
  rewrite checkSample_printed.
  induction (testPoints date numTests testStep) as [| p l IH]; [reflexivity |].
  simpl flat_map. rewrite reportedOffsets_app, IH.
  now destruct verbose.
Qed.

Lemma reportedOffsets_timingReport (a e : F) :
  reportedOffsets (fst (timingReport (D := AbsoluteDate) a e)) = [].
Proof. unfold timingReport. now destruct (py_div _ a). Qed.

Lemma reportedOffsets_loop clock args propagator context frame dates :
  forall st : MainState,
    reportedOffsets (m_printed st) = [] ->
    reportedOffsets
      (m_printed (fold_left (main_step clock args propagator context frame)
                    dates st)) = [].
Proof.
  induction dates as [| date dates IH]; intros st Hst; simpl; [exact Hst |].
  apply IH. simpl. now rewrite reportedOffsets_app, Hst, reportedOffsets_checkSample.
Qed.

(** The report prints the offsets of the buckets, in dictionary order. *)
Lemma reportedOffsets_main clock args tleDate propagator context :
  reportedOffsets (fst (main clock args tleDate propagator context))
  = offsets (m_results (main_loop clock args tleDate propagator context)).
Proof.
  unfold main.
  pose proof (reportedOffsets_timingReport
                (actualTime (main_loop clock args tleDate propagator context))
                (estimateTime (main_loop clock args tleDate propagator context)))
    as Htail.
  destruct (timingReport _ _) as [tail outcome]. simpl in *.
  rewrite !reportedOffsets_app, reportedOffsets_report, Htail, app_nil_r.
  unfold main_loop. now rewrite reportedOffsets_loop.
Qed.

Lemma stepMultiples_sorted (numTests : Z) (testStep : F) :
  MultiplesGrowLaw -> ltb zero testStep = true ->
  StronglySorted ascending (stepMultiples numTests testStep).
Proof.
  intros Hgrow Hpos. unfold stepMultiples, range. rewrite map_map.
  generalize (Z.to_nat (numTests - 0)) as m. generalize 0%nat as start.
  intros start m. revert start.
  induction m as [| m IH]; intros start; simpl; constructor.
  - apply IH.
  - apply Forall_forall. intros x Hx.
    apply in_map_iff in Hx. destruct Hx as (k & <- & Hk).
    apply in_seq in Hk. apply Hgrow; [lia | exact Hpos].
Qed.


End Report.

(** ** The synthetic Earth meets the contracts *)

Lemma exactZ_NonPositiveLaw : @NonPositiveLaw Z exactZ.
Proof. intros x. cbn. lia. Qed.

Lemma exactZ_AddCommLaw : @AddCommLaw Z exactZ.
Proof. intros a b. cbn. lia. Qed.

Lemma exactZ_AddAssocLaw : @AddAssocLaw Z exactZ.
Proof. intros a b c. cbn. lia. Qed.

Lemma exactZ_MultiplesGrowLaw : @MultiplesGrowLaw Z exactZ.
Proof.
  intros i j s Hij Hs. cbn in *.
  apply Z.ltb_lt. apply Z.ltb_lt in Hs.
  apply Z.mul_lt_mono_pos_r; lia.
Qed.

Lemma synthetic_IdentityLaw : @IdentityLaw Z Synthetic.lib.
Proof. intros [[[x y] z] [[x' y'] z']]. reflexivity. Qed.

Lemma synthetic_ShiftDurationLaw : @ShiftDurationLaw Z Synthetic.lib.
Proof. intros d x. cbn. lia. Qed.

Lemma synthetic_ShiftZeroLaw : @ShiftZeroLaw Z exactZ Synthetic.lib.
Proof. intros d. cbn. lia. Qed.

Lemma synthetic_DistanceSelfLaw : @DistanceSelfLaw Z exactZ Synthetic.lib.
Proof. intros [[x y] z]. cbn. lia. Qed.

Lemma synthetic_AngleSelfLaw : @AngleSelfLaw Z exactZ Synthetic.lib.
Proof.
  intros [[x y] z]. cbn. now rewrite !Z.eqb_refl.
Qed.

(** ** Runs on the synthetic Earth and on binary64 *)

Section SyntheticRuns.

Open Scope Z_scope.

(** The second test point of a run is 10 s after the epoch: the estimate
    there is the baseline followed by the rotation, and it meets the
    provider's state exactly. *)
Lemma estimate_positive_offset_witness :
  (Z.of_nat 1 < 4)
  /\ ltb (PyFloat := exactZ) 0 (110 - 100) = true
  /\ nth_error (results (Synthetic.run 4 false)) 1
     = Some {| deltaTime := 10; posError := 0; velMagError := 0; velAngError := 0 |}.
Proof.
  split; [reflexivity |]. split; [reflexivity |].
  exact (proj2 (@estimate_positive_offset Z exactZ Synthetic.lib Synthetic.clock
                  0%nat 100 Synthetic.satellite Synthetic.context None 4 10 false
                  1%nat eq_refl eq_refl)).
Defined.

(** With a library whose angular velocity constant is twice the rate of
    the synthetic Earth the estimate leaves the truth after one second,
    while the exact transform still meets it: the check value printed
    is the error of the estimate (90 degrees), not the error of the
    actual transform (0). *)
Example check_velocity_angle_ignores_actual :
  let l := localsAt (num := exactZ) (lib := Synthetic.libWith 2) 100
             Synthetic.satellite Synthetic.context None 101 in
  deltaVelAng l = 90
  /\ deltaActVelAng l = 90
  /\ toDegrees (Orekit := Synthetic.libWith 2)
       (angle (Orekit := Synthetic.libWith 2)
          (getVelocity (Orekit := Synthetic.libWith 2) (fixedPv l))
          (getVelocity (Orekit := Synthetic.libWith 2) (actualFixedPv l))) = 0.
Proof. repeat split. Qed.

(** At offset zero the estimate is the baseline transform alone. *)
Lemma estimate_nonpositive_offset_witness :
  @IdentityLaw Z Synthetic.lib
  /\ @NonPositiveLaw Z exactZ
  /\ leb (PyFloat := exactZ) 0 0 = true
  /\ estimate (num := exactZ) (lib := Synthetic.lib) 100 100 0
       (Synthetic.inertialState 100)
     = transformPVCoordinates (Orekit := Synthetic.lib) 100
         (Synthetic.inertialState 100).
Proof.
  split; [exact synthetic_IdentityLaw |].
  split; [exact exactZ_NonPositiveLaw |].
  split; [reflexivity |].
  exact (proj1 (proj2 (@estimate_nonpositive_offset Z exactZ Synthetic.lib
                         synthetic_IdentityLaw exactZ_NonPositiveLaw
                         100 100 0 (Synthetic.inertialState 100) eq_refl))).
Defined.

(** A run on binary64 whose test points go back in time, 10 s apart:
    the first sample has no error. *)
Lemma zero_offset_sample_exact_witness :
  shiftedBy (Orekit := Polar.lib) 100.5%float
    (mul (PyFloat := binary64) (of_int (PyFloat := binary64) 0) (-10)%float)
  = 100.5%float
  /\ durationFrom (Orekit := Polar.lib) 100.5%float 100.5%float = 0%float
  /\ ltb (PyFloat := binary64) 0%float 0%float = false
  /\ @ConsistentAt float Polar.lib Polar.satellite Synthetic.GCRF Synthetic.ITRF
       100.5%float
  /\ (0 < 3)%Z
  /\ nth_error (results (Polar.run 100.5%float 3 (-10)%float)) 0
     = Some {| deltaTime := 0%float; posError := 0%float;
               velMagError := 0%float; velAngError := 0%float |}.
Proof.
  split; [reflexivity |]. split; [reflexivity |]. split; [reflexivity |].
  split; [reflexivity |]. split; [reflexivity |].
  exact (@zero_offset_sample_exact float binary64 Polar.lib Polar.clock 0%nat
           100.5%float Polar.satellite Synthetic.context None 3%Z (-10)%float
           false eq_refl eq_refl eq_refl eq_refl eq_refl eq_refl eq_refl eq_refl
           eq_refl).
Defined.







End SyntheticRuns.

(** * Further facts *)

(** ** checkSample: what the clock and the verbose flag do *)

Section CheckSampleMore.

Context {F : Type} {num : PyFloat F} {lib : Orekit F}.

(** X1.  The samples that [checkSample] returns depend neither on the
    clock, nor on how often it was read before, nor on the verbose
    flag. *)
Theorem checkSample_results_independent :
  forall (clock clock' : Clock F) (t0 t0' : nat) (verbose verbose' : bool)
         (date : AbsoluteDate) (pvProv : PVCoordinatesProvider)
         (context : DataContext Frame) (inertialFrame : option Frame)
         (numTests : Z) (testStep : F),
    results (checkSample clock t0 date pvProv context inertialFrame numTests
               testStep verbose)
    = results (checkSample clock' t0' date pvProv context inertialFrame numTests
                 testStep verbose').
Proof. intros. now rewrite !checkSample_results. Qed.

(** X2.  Without the verbose flag [checkSample] prints nothing.  With it,
    it prints eight lines per test point; the first line of every block
    shows the reference epoch [date] (not the test point), the second
    the offset of the test point. *)
Theorem checkSample_verbose_output :
  forall (clock : Clock F) (t0 : nat) (date : AbsoluteDate)
         (pvProv : PVCoordinatesProvider) (context : DataContext Frame)
         (inertialFrame : option Frame) (numTests : Z) (testStep : F),
    printed (checkSample clock t0 date pvProv context inertialFrame numTests
               testStep false) = []
    /\ (let cs := checkSample clock t0 date pvProv context inertialFrame numTests
                    testStep true in
        length (printed cs) = (8 * Z.to_nat numTests)%nat
        /\ forall i : nat,
             nth_error (printed cs) (8 * i)
             = option_map (fun _ => TimePoint date)
                 (nth_error (testPoints date numTests testStep) i)
             /\ nth_error (printed cs) (8 * i + 1)
                = option_map (fun p => DeltaFromEpoch (durationFrom p date))
                    (nth_error (testPoints date numTests testStep) i)).
Proof.
  intros clock t0 date pvProv context inertialFrame numTests testStep.
  rewrite !checkSample_printed. split.
  - induction (testPoints date numTests testStep); [reflexivity | assumption].
  - cbv zeta. rewrite checkSample_printed. split.
    + assert (Hlen : length (testPoints date numTests testStep) = Z.to_nat numTests).
      { unfold testPoints. now rewrite length_map, range_length, Z.sub_0_r. }
      rewrite <- Hlen. clear Hlen.
      induction (testPoints date numTests testStep) as [| p l IH];
        [reflexivity |].
      cbn [flat_map verboseLines app length]. rewrite IH. lia.
    + intros i. split.
      * replace (8 * i)%nat with (8 * i + 0)%nat by lia.
        rewrite (nth_error_blocks _ (n := 8)) by (reflexivity || lia).
        now destruct (nth_error _ i).
      * rewrite (nth_error_blocks _ (n := 8)) by (reflexivity || lia).
        now destruct (nth_error _ i).
Qed.

Lemma estWindows_succ (clock : Clock F) (t n : nat) :
  estWindows clock t (S n)
  = sub (clock (1 + t)%nat) (clock t) :: estWindows clock (4 + t) n.
Proof.
  unfold estWindows. rewrite <- cons_seq, <- seq_shift, map_cons, map_map.
  f_equal; [f_equal; f_equal; lia |].
  apply map_ext. intros k. f_equal; f_equal; lia.
Qed.

Lemma actWindows_succ (clock : Clock F) (t n : nat) :
  actWindows clock t (S n)
  = sub (clock (3 + t)%nat) (clock (2 + t)%nat) :: actWindows clock (4 + t) n.
Proof.
  unfold actWindows. rewrite <- cons_seq, <- seq_shift, map_cons, map_map.
  f_equal; [f_equal; f_equal; lia |].
  apply map_ext. intros k. f_equal; f_equal; lia.
Qed.

Lemma checkSample_loop_times clock date pvProv inertialFrame ecef baseline verbose
    (pts : list AbsoluteDate) :
  forall st : LoopState,
    let st' := fold_left
                 (checkSample_step clock date pvProv inertialFrame ecef baseline
                    verbose) pts st in
    estTime st'
    = fold_left add (estWindows clock (ticks st) (length pts)) (estTime st)
    /\ actTime st'
       = fold_left add (actWindows clock (ticks st) (length pts)) (actTime st).
Proof.
  induction pts as [| p pts IH]; intros st; [split; reflexivity |].
  cbn [fold_left length]. rewrite estWindows_succ, actWindows_succ.
  specialize (IH (checkSample_step clock date pvProv inertialFrame ecef baseline
                    verbose st p)).
  cbv zeta in IH. destruct IH as [He Ha]. split; [exact He | exact Ha].
Qed.

(** X3.  [checkSample] reads the clock four times per test point, and
    the two times it returns are the sums, in order, of the windows
    [eStop - eStart] and [aStop - aStart] of the iterations. *)
Theorem checkSample_timing :
  forall (clock : Clock F) (t0 : nat) (date : AbsoluteDate)
         (pvProv : PVCoordinatesProvider) (context : DataContext Frame)
         (inertialFrame : option Frame) (numTests : Z) (testStep : F)
         (verbose : bool),
    let cs := checkSample clock t0 date pvProv context inertialFrame numTests
                testStep verbose in
    ticks cs = (4 * Z.to_nat numTests + t0)%nat
    /\ estTime cs = total (estWindows clock t0 (Z.to_nat numTests))
    /\ actTime cs = total (actWindows clock t0 (Z.to_nat numTests)).
Proof.
  intros clock t0 date pvProv context inertialFrame numTests testStep verbose cs.
  assert (Hlen : length (testPoints date numTests testStep) = Z.to_nat numTests).
  { unfold testPoints. now rewrite length_map, range_length, Z.sub_0_r. }
  subst cs. unfold checkSample. rewrite checkSample_loop_ticks.
  match goal with
  | |- context [fold_left ?f ?pts ?st] =>
      destruct (checkSample_loop_times clock date pvProv
                  (frameOrDefault context inertialFrame) (ecefOf context)
                  (getTransformTo (frameOrDefault context inertialFrame)
                     (ecefOf context) date) verbose pts st) as [He Ha]
  end.
  rewrite He, Ha, Hlen. cbn [ticks estTime actTime]. repeat split.
Qed.


End CheckSampleMore.

(** ** The dictionary of buckets *)

Section DictMore.

Context {F : Type} {num : PyFloat F} {V : Type}.

Lemma dict_get_None (k : Key) (d : Dict V) :
  dict_get k d = None <-> ~ In k (map fst d).
Proof.
  induction d as [| [k' v] d IH]; simpl; [tauto |].
  destruct (key_eq_dec k k') as [-> | Hne].
  - split; [discriminate | intros H; destruct H; now left].
  - rewrite IH. split; [intros H [Heq | Hin]; [congruence | tauto] | tauto].
Qed.

Lemma dict_get_In (k : Key) (v : V) (d : Dict V) :
  dict_get k d = Some v -> In (k, v) d.
Proof.
  induction d as [| [k' v'] d IH]; simpl; [discriminate |].
  destruct (key_eq_dec k k') as [-> | Hne].
  - intros [= ->]. now left.
  - intros H. right. now apply IH.
Qed.

Lemma dict_set_keys (k : Key) (v : V) (d : Dict V) :
  map fst (dict_set k v d)
  = match dict_get k d with
    | Some _ => map fst d
    | None => map fst d ++ [k]
    end.
Proof.
  induction d as [| [k' v'] d IH]; simpl; [reflexivity |].
  destruct (key_eq_dec k k'); simpl; [reflexivity |].
  rewrite IH. now destruct (dict_get k d).
Qed.

Lemma Forall_dict_set (P : Key * V -> Prop) (k : Key) (v : V) (d : Dict V) :
  Forall P d -> P (k, v) -> Forall P (dict_set k v d).
Proof.
  intros Hd Hv. induction Hd as [| [k' v'] d Hx Hd IH]; simpl.
  - now constructor.
  - destruct (key_eq_dec k k') as [<- | Hne]; constructor; assumption.
Qed.

Lemma list_sum_dict_set (f : V -> nat) (k : Key) (v : V) (d : Dict V) :
  list_sum (map f (dict_values (dict_set k v d)))
  + match dict_get k d with Some r => f r | None => 0 end
  = list_sum (map f (dict_values d)) + f v.
Proof.
  unfold dict_values. induction d as [| [k' v'] d IH]; simpl; [lia |].
  destruct (key_eq_dec k k'); simpl; lia.
Qed.

End DictMore.

Section AggregateMore.

Context {F : Type} {num : PyFloat F}.

Lemma add_sample_ok (d : Dict (OffsetStatistics F)) (s : SampleResult F) :
  DictOk d -> DictOk (add_sample d s).
Proof.
  intros [Hnd Hall]. unfold add_sample, DictOk.
  destruct (dict_get (str (deltaTime s)) d) as [r |] eqn:Hget;
    rewrite dict_set_keys, Hget; split.
  - exact Hnd.
  - apply Forall_dict_set; [exact Hall |].
    apply dict_get_In in Hget.
    rewrite Forall_forall in Hall. destruct (Hall _ Hget) as (Hk & H1 & H2 & H3).
    unfold BucketOk, addValue, getN in *. cbn in *.
    rewrite !length_app. cbn. repeat split; (exact Hk || lia).
  - apply (Permutation_NoDup (Permutation_cons_append _ _)).
    constructor; [now apply dict_get_None | exact Hnd].
  - apply Forall_dict_set; [exact Hall |].
    unfold BucketOk, getN. cbn. repeat split; lia.
Qed.

Lemma aggregate_ok (data : list (SampleResult F)) :
  forall d : Dict (OffsetStatistics F), DictOk d -> DictOk (aggregate d data).
Proof.
  unfold aggregate.
  induction data as [| s data IH]; intros d Hd; simpl; [exact Hd |].
  apply IH, add_sample_ok, Hd.
Qed.

(** X6.  Aggregation keeps the dictionary well formed: the keys are
    distinct, every bucket sits under the key of the offset it reports,
    its three accumulators hold the same number of values, and no bucket
    is empty. *)
Theorem aggregate_keeps_dict_ok :
  forall (d : Dict (OffsetStatistics F)) (data : list (SampleResult F)),
    DictOk d -> DictOk (aggregate d data).
Proof. intros d data Hd. now apply aggregate_ok. Qed.

(** X7.  No sample is lost or counted twice: after an aggregation the
    buckets hold as many samples more as were fed in. *)
Theorem aggregate_stores_every_sample :
  forall (d : Dict (OffsetStatistics F)) (data : list (SampleResult F)),
    stored (aggregate d data) = (stored d + length data)%nat.
Proof.
  intros d data. revert d. unfold aggregate.
  induction data as [| s data IH]; intros d; simpl; [lia |].
  rewrite IH. unfold stored, add_sample.
  destruct (dict_get (str (deltaTime s)) d) as [r |] eqn:Hget.
  - match goal with
    | |- context [dict_set ?k ?v d] =>
        pose proof (list_sum_dict_set (fun b => getN (stat_posError b)) k v d) as H
    end.
    rewrite Hget in H. cbn in H. unfold addValue, getN in *.
    rewrite length_app in H. cbn in H. lia.
  - match goal with
    | |- context [dict_set ?k ?v d] =>
        pose proof (list_sum_dict_set (fun b => getN (stat_posError b)) k v d) as H
    end.
    rewrite Hget in H. cbn in H. unfold getN in *. lia.
Qed.

Lemma aggregate_keys_incl (data : list (SampleResult F)) :
  forall d : Dict (OffsetStatistics F),
    incl (map fst (aggregate d data))
         (map fst d ++ map (fun s => str (deltaTime s)) data).
Proof.
  unfold aggregate. induction data as [| s data IH]; intros d; simpl.
  - rewrite app_nil_r. apply incl_refl.
  - intros k Hk. apply IH in Hk. apply in_app_or in Hk.
    destruct Hk as [Hk | Hk].
    + unfold add_sample in Hk.
      destruct (dict_get (str (deltaTime s)) d) eqn:Hget;
        rewrite dict_set_keys, Hget in Hk.
      * apply in_or_app. now left.
      * apply in_app_or in Hk. apply in_or_app.
        destruct Hk as [Hk | [<- | []]]; [now left | right; now left].
    + apply in_or_app. right. now right.
Qed.

Lemma aggregate_offsets_incl (data : list (SampleResult F)) :
  forall d : Dict (OffsetStatistics F),
    incl (offsets (aggregate d data)) (offsets d ++ map (@deltaTime F) data).
Proof.
  unfold aggregate. induction data as [| s data IH]; intros d; simpl.
  - rewrite app_nil_r. apply incl_refl.
  - intros x Hx. apply IH in Hx. rewrite offsets_add_sample in Hx.
    apply in_app_or in Hx. apply in_or_app.
    destruct Hx as [Hx | Hx]; [| right; now right].
    destruct (dict_get (str (deltaTime s)) d); [now left |].
    apply in_app_or in Hx. destruct Hx as [Hx | [<- | []]];
      [now left | right; now left].
Qed.

End AggregateMore.

(** ** main: the shape of a run *)

Section MainMore.

Context {F : Type} {num : PyFloat F} {lib : Orekit F}.

Lemma sampleTimes_length (args : Args F) (tleDate : AbsoluteDate) :
  length (sampleTimes args tleDate) = Z.to_nat (sample_points args).
Proof. unfold sampleTimes. now rewrite length_map, range_length, Z.sub_0_r. Qed.

Lemma stepMultiples_length (numTests : Z) (testStep : F) :
  length (stepMultiples numTests testStep) = Z.to_nat numTests.
Proof. unfold stepMultiples. now rewrite length_map, range_length, Z.sub_0_r. Qed.


Lemma noPercent_checkSample clock t0 date pvProv context inertialFrame numTests
    testStep verbose :
  forallb (fun l => negb (isPercentLine l))
    (printed (checkSample clock t0 date pvProv context inertialFrame numTests
                testStep verbose)) = true.
Proof.
  rewrite checkSample_printed.
  induction (testPoints date numTests testStep) as [| p l IH]; [reflexivity |].
  simpl flat_map. rewrite forallb_app, IH. now destruct verbose.
Qed.

Lemma noPercent_loop clock args propagator context frame dates :
  forall st : MainState,
    forallb (fun l => negb (isPercentLine l)) (m_printed st) = true ->
    forallb (fun l => negb (isPercentLine l))
      (m_printed (fold_left (main_step clock args propagator context frame)
                    dates st)) = true.
Proof.
  induction dates as [| date dates IH]; intros st Hst; simpl; [exact Hst |].
  apply IH. simpl. now rewrite forallb_app, Hst, noPercent_checkSample.
Qed.

Lemma noPercent_report (d : Dict (OffsetStatistics F)) :
  forallb (fun l : Line AbsoluteDate F => negb (isPercentLine l))
    (flat_map reportLines (dict_values d)) = true.
Proof. induction (dict_values d) as [| r l IH]; [reflexivity | exact IH]. Qed.

(** X9.  A run ends with [ZeroDivisionError] exactly when the
    accumulated exact-path time compares equal to zero, and then no
    percent-improvement line is printed; otherwise it completes, and the
    percent-improvement line, with the value
    [100 * (actual - estimated) / actual], is the last line and the only
    one of its kind. *)
Theorem main_outcome :
  forall (clock : Clock F) (args : Args F) (tleDate : AbsoluteDate)
         (propagator : PVCoordinatesProvider) (context : DataContext Frame),
    let st := main_loop clock args tleDate propagator context in
    let res := main clock args tleDate propagator context in
    if eqb (actualTime st) zero
    then snd res = ZeroDivisionError
         /\ forallb (fun l => negb (isPercentLine l)) (fst res) = true
    else snd res = Completed
         /\ exists body,
              fst res
              = body
                ++ [PercentImprovementLine
                      (div (mul (of_int 100)
                              (sub (actualTime st) (estimateTime st)))
                           (actualTime st))]
              /\ forallb (fun l => negb (isPercentLine l)) body = true.
Proof.
  intros clock args tleDate propagator context st res. subst res.
  unfold main. fold st. unfold timingReport, py_div.
  assert (Hp : forallb (fun l => negb (isPercentLine l)) (m_printed st) = true).
  { subst st. unfold main_loop. now apply noPercent_loop. }
  destruct (eqb (actualTime st) zero); cbn [fst snd]; (split; [reflexivity |]).
  - now rewrite !forallb_app, Hp, noPercent_report.
  - eexists. rewrite !app_assoc. split; [reflexivity |].
    now rewrite !forallb_app, Hp, noPercent_report.
Qed.

Lemma main_loop_ticks clock args propagator context frame dates :
  forall st : MainState,
    m_ticks (fold_left (main_step clock args propagator context frame) dates st)
    = (4 * Z.to_nat (tests_per_sample args) * length dates + m_ticks st)%nat.
Proof.
  induction dates as [| date dates IH]; intros st; simpl; [lia |].
  rewrite IH. cbn [main_step m_ticks].
  pose proof (checkSample_timing clock (m_ticks st) date propagator context
                (Some frame) (tests_per_sample args) (test_step args)
                (verbose args)) as H.
  cbv zeta in H. destruct H as [-> _]. lia.
Qed.

(** X11.  A run reads the clock four times for every test point of
    every reference epoch, and at no other time. *)
Theorem main_clock_readings :
  forall (clock : Clock F) (args : Args F) (tleDate : AbsoluteDate)
         (propagator : PVCoordinatesProvider) (context : DataContext Frame),
    m_ticks (main_loop clock args tleDate propagator context)
    = (4 * Z.to_nat (tests_per_sample args) * Z.to_nat (sample_points args))%nat.
Proof.
  intros. unfold main_loop. rewrite main_loop_ticks, sampleTimes_length.
  cbn. lia.
Qed.

End MainMore.

Section Binary64More.

Open Scope float_scope.

(** X10.  On binary64, a run with [--tests-per-sample 0] evaluates no
    test point, whatever the number of reference epochs: both totals
    stay 0, no block is reported and the run ends with
    [ZeroDivisionError]. *)
Theorem no_tests_run_raises :
  forall (lib : Orekit float) (clock : Clock float) (sample_points : Z)
         (step test_step : float) (verbose : bool)
         (inertial_frame : InertialChoice) (tleDate : AbsoluteDate)
         (propagator : PVCoordinatesProvider) (context : DataContext Frame),
    main (num := binary64) clock
      {| sample_points := sample_points; step := step; verbose := verbose;
         inertial_frame := inertial_frame;
         tests_per_sample := 0; test_step := test_step |}
      tleDate propagator context
    = ([BlankLine; TotalTimeLine; HighFidelityLine 0; EstimatedLine 0],
       ZeroDivisionError).
Proof.
  intros. unfold main, main_loop.
  match goal with
  | |- context [fold_left ?f ?l ?st] =>
      assert (Hfold : fold_left f l st = st);
      [ generalize l; intros dates;
        induction dates as [| d dates IH]; [reflexivity | exact IH]
      | rewrite Hfold ]
  end.
  reflexivity.
Qed.

End Binary64More.

(** ** Text and paths *)

Section TextFacts.

Import Ascii String.

Lemma after_last_sep_noSep (p : pystr) :
  noSep p -> forall cur, after_last_sep cur p = cur.
Proof.
  induction 1 as [| c p Hc Hp IH]; intros cur; simpl; [reflexivity |].
  rewrite Hc. apply IH.
Qed.

Lemma after_last_sep_app (pre name : pystr) :
  noSep name -> forall cur, after_last_sep cur (pre ++ SEP :: name) = name.
Proof.
  intros Hname. induction pre as [| c pre IH]; intros cur; simpl.
  - now apply after_last_sep_noSep.
  - destruct (Ascii.eqb c SEP); apply IH.
Qed.

Lemma basename_last_segment (pre name : pystr) :
  noSep name -> basename (pre ++ SEP :: name) = name.
Proof. intros. now apply after_last_sep_app. Qed.

(** The result of [after_last_sep] is free of ["/"] when [cur] is, and
    it is [cur] or a suffix of the path. *)
Lemma after_last_sep_spec (p : pystr) :
  forall cur,
    (after_last_sep cur p = cur /\ noSep p)
    \/ exists pre, p = pre ++ SEP :: after_last_sep cur p
                   /\ noSep (after_last_sep cur p).
Proof.
  induction p as [| c p IH]; intros cur; simpl.
  - left. split; [reflexivity | constructor].
  - destruct (Ascii.eqb c SEP) eqn:Hc.
    + apply Ascii.eqb_eq in Hc. subst c. right.
      destruct (IH p) as [[Heq Hns] | (pre & Heq & Hns)].
      * exists []. rewrite Heq. split; [reflexivity | exact Hns].
      * exists (SEP :: pre). split; [simpl; now rewrite <- Heq | exact Hns].
    + destruct (IH cur) as [[Heq Hns] | (pre & Heq & Hns)].
      * left. split; [exact Heq | now constructor].
      * right. exists (c :: pre). split; [simpl; now rewrite <- Heq | exact Hns].
Qed.

Lemma endswith_sep_app (a d : pystr) :
  d <> [] -> endswith_sep (a ++ d) = endswith_sep d.
Proof.
  intros Hd. induction a as [| c a IH]; [reflexivity |].
  simpl app. simpl endswith_sep. rewrite IH.
  destruct (a ++ d) eqn:E; [| reflexivity].
  apply app_eq_nil in E. destruct E. contradiction.
Qed.

Lemma splitlines_from_line (line rest : pystr) :
  noLineBreak line ->
  forall cur,
    splitlines_from cur (line ++ LF :: rest)
    = (cur ++ line) :: splitlines_from [] rest
    /\ splitlines_from cur (line ++ CR :: LF :: rest)
       = (cur ++ line) :: splitlines_from [] rest.
Proof.
  induction 1 as [| c line Hc Hline IH]; intros cur.
  - rewrite app_nil_r. split; reflexivity.
  - simpl app. cbn [splitlines_from].
    unfold isLineBreak in Hc. apply Bool.orb_false_iff in Hc.
    destruct Hc as [-> ->].
    destruct (IH (cur ++ [c])) as [H1 H2].
    rewrite H1, H2, <- !app_assoc. split; reflexivity.
Qed.

Lemma splitlines_from_noLineBreak (s : pystr) :
  forall cur, noLineBreak cur -> Forall noLineBreak (splitlines_from cur s).
Proof.
  assert (H : forall n s, (List.length s <= n)%nat ->
                forall cur, noLineBreak cur ->
                            Forall noLineBreak (splitlines_from cur s)).
  { induction n as [| n IH]; intros s' Hlen cur Hcur.
    - destruct s'; [| simpl in Hlen; lia].
      simpl. destruct cur; constructor; [exact Hcur | constructor].
    - destruct s' as [| c s']; [apply (IH []); [simpl; lia | exact Hcur] |].
      simpl in Hlen. cbn [splitlines_from].
      destruct (Ascii.eqb c LF) eqn:Hlf.
      + constructor; [exact Hcur |]. apply IH; [lia | constructor].
      + destruct (Ascii.eqb c CR) eqn:Hcr.
        * destruct s' as [| c' s''].
          -- constructor; [exact Hcur |]. apply IH; [simpl; lia | constructor].
          -- simpl in Hlen.
             destruct (Ascii.eqb c' LF);
               (constructor; [exact Hcur |]); apply IH;
               try (simpl; lia); constructor.
        * apply IH; [lia |].
          apply Forall_app. split; [exact Hcur |].
          constructor; [| constructor]. unfold isLineBreak. now rewrite Hlf, Hcr. }
  intros cur Hcur. now apply (H (List.length s)).
Qed.

Lemma is_prefix_spec (a s : pystr) :
  is_prefix a s = true <-> exists b, s = a ++ b.
Proof.
  revert s. induction a as [| x a IH]; intros s; simpl.
  - split; [intros _; now exists s | reflexivity].
  - destruct s as [| y s].
    + split; [discriminate | intros [b Hb]; discriminate].
    + rewrite Bool.andb_true_iff, Ascii.eqb_eq, IH. split.
      * intros [-> [b ->]]. now exists b.
      * intros [b Hb]. injection Hb as -> ->. split; [reflexivity | now exists b].
Qed.

Lemma contains_spec (hay needle : pystr) :
  contains hay needle = true <-> exists a b, hay = a ++ needle ++ b.
Proof.
  induction hay as [| c hay IH].
  - simpl. rewrite Bool.orb_false_r, is_prefix_spec. split.
    + intros [b Hb]. now exists [], b.
    + intros (a & b & H). destruct a; [now exists b | discriminate].
  - cbn [contains]. rewrite Bool.orb_true_iff, is_prefix_spec, IH. split.
    + intros [[b Hb] | (a & b & Hb)].
      * now exists [], b.
      * exists (c :: a), b. simpl. now rewrite Hb.
    + intros (a & b & Hb). destruct a as [| x a].
      * left. now exists b.
      * right. injection Hb as _ Hb. now exists a, b.
Qed.

(** X12.  The guard under which the file runs [main()] tests that the
    module name occurs in ["__main__"], not that it is equal to it: it
    holds for exactly the names that are a part of ["__main__"], among
    them ["main"], the name of the module when [main.py] is imported,
    and the empty name. *)
Theorem entry_guard_accepts_substrings :
  (forall name : pystr,
     entry_guard name = true <-> exists a b, lit "__main__" = a ++ name ++ b)
  /\ entry_guard (lit "__main__") = true
  /\ entry_guard (lit "main") = true
  /\ entry_guard [] = true
  /\ entry_guard (lit "__main__.py") = false.
Proof.
  split; [intros name; apply contains_spec |]. repeat split.
Qed.

End TextFacts.

(** ** download *)

Section DownloadFacts.

Import Ascii String.

Context {host : Host}.

Lemma write_chunks_fold (dest : pystr) (cs : Z) (chunks : list pystr) :
  forall (fs : FS) (z : Z),
    fold_left
      (fun (st : FS * Z) (chunk : pystr) =>
         (fd_write (fst st) dest chunk, (snd st + cs)%Z))
      chunks (fs, z)
    = (fold_left (fun f c => fd_write f dest c) chunks fs,
       (z + cs * Z.of_nat (List.length chunks))%Z).
Proof.
  induction chunks as [| c chunks IH]; intros fs z.
  - simpl. f_equal. lia.
  - cbn [fold_left List.length fst snd]. rewrite IH. f_equal. lia.
Qed.

Lemma write_chunks_spec (dest : pystr) (cs : Z) (chunks : list pystr) (fs : FS) :
  write_chunks dest cs chunks fs
  = (fold_left (fun f c => fd_write f dest c) chunks fs,
     (cs * Z.of_nat (List.length chunks))%Z).
Proof. unfold write_chunks. now rewrite write_chunks_fold. Qed.

Lemma chunks_keep_paths (dest q : pystr) (chunks : list pystr) :
  WriteKeepsLaw ->
  forall fs, os_path_exists fs q = true ->
             os_path_exists (fold_left (fun f c => fd_write f dest c) chunks fs) q
             = true.
Proof.
  intros Hkeep. induction chunks as [| c chunks IH]; intros fs Hq; [exact Hq |].
  simpl. apply IH, Hkeep, Hq.
Qed.

Lemma chunks_append (dest : pystr) (chunks : list pystr) :
  WriteAppendsLaw ->
  forall fs old,
    file_content fs dest = Some old ->
    file_content (fold_left (fun f c => fd_write f dest c) chunks fs) dest
    = Some (old ++ List.concat chunks).
Proof.
  intros Happ. induction chunks as [| c chunks IH]; intros fs old Hold; simpl.
  - now rewrite app_nil_r.
  - rewrite (IH _ (old ++ c)); [now rewrite <- app_assoc | now apply Happ].
Qed.

(** X13.  A file that is at its destination is never fetched again: a
    call that finds it returns its path and changes nothing, and a call
    that follows a successful one is such a call. *)
Theorem download_is_cached :
  OpenCreatesLaw -> WriteKeepsLaw ->
  forall (url dataDir : pystr) (chunk_size : Z) (w : World host),
    (os_path_exists (files w) (destination url dataDir) = true ->
     download url dataDir chunk_size w = (Ok (destination url dataDir), w))
    /\ forall (dest : pystr) (w' : World host),
         download url dataDir chunk_size w = (Ok dest, w') ->
         download url dataDir chunk_size w' = (Ok dest, w').
Proof.
  intros Hopen Hkeep url dataDir cs w.
  assert (Hhit : forall v : World host,
            os_path_exists (files v) (destination url dataDir) = true ->
            download url dataDir cs v = (Ok (destination url dataDir), v)).
  { intros v Hv. unfold download. now rewrite Hv. }
  split; [apply Hhit |].
  intros dest w' Hrun.
  assert (Hdest : dest = destination url dataDir
                  /\ os_path_exists (files w') (destination url dataDir) = true).
  { unfold download in Hrun.
    destruct (os_path_exists (files w) (destination url dataDir)) eqn:Hex.
    - injection Hrun as <- <-. now split.
    - destruct (if os_path_exists (files w) dataDir then Some (files w)
                else os_makedirs (files w) dataDir) as [fs1 |];
        [| discriminate].
      unfold send, print in Hrun. cbn [files stdout sent] in Hrun.
      destruct (open_wb fs1 (destination url dataDir)) as [fs2 |] eqn:Ho;
        [| discriminate].
      rewrite write_chunks_spec in Hrun. injection Hrun as <- <-.
      split; [reflexivity |]. cbn [files].
      apply chunks_keep_paths; [exact Hkeep |]. now apply (Hopen _ _ _ Ho). }
  destruct Hdest as [-> Hex]. now apply Hhit.
Qed.

(** X14.  When the file is not at its destination and the call
    returns, exactly one request was sent, whatever its status code the
    file now holds the chunks of the answer in order, and two lines
    were printed: the URL with the status code, and the number of
    chunks times [chunk_size]. *)
Theorem download_fetches_once :
  OpenCreatesLaw -> WriteAppendsLaw ->
  forall (url dataDir : pystr) (chunk_size : Z) (w w' : World host)
         (dest : pystr),
    os_path_exists (files w) (destination url dataDir) = false ->
    download url dataDir chunk_size w = (Ok dest, w') ->
    let r := requests_get (List.length (sent w)) (downloadRequest url) in
    let chunks := iter_content r chunk_size in
    dest = destination url dataDir
    /\ sent w' = sent w ++ [downloadRequest url]
    /\ stdout w'
       = stdout w
         ++ [ url ++ lit " ... " ++ str_int (status_code r);
              str_int (chunk_size * Z.of_nat (List.length chunks)) ]
    /\ file_content (files w') dest = Some (List.concat chunks).
Proof.
  intros Hopen Happ url dataDir cs w w' dest Hex Hrun r chunks.
  unfold download in Hrun. rewrite Hex in Hrun.
  destruct (if os_path_exists (files w) dataDir then Some (files w)
            else os_makedirs (files w) dataDir) as [fs1 |];
    [| discriminate].
  unfold send, print in Hrun. cbn [files stdout sent] in Hrun.
  destruct (open_wb fs1 (destination url dataDir)) as [fs2 |] eqn:Ho;
    [| discriminate].
  rewrite write_chunks_spec in Hrun. injection Hrun as <- <-.
  cbn [files stdout sent]. fold (downloadRequest url). fold r. fold chunks.
  repeat split.
  - now rewrite <- app_assoc.
  - destruct (Hopen _ _ _ Ho) as [_ Hempty].
    now rewrite (chunks_append _ chunks Happ _ Hempty).
Qed.

(** X15.  The size that [download] prints counts [chunk_size] for every
    chunk: when no chunk is longer than [chunk_size], it is at least the
    number of characters written, and it is that number only if every
    chunk is full. *)
Theorem download_size_counts_chunks :
  WriteAppendsLaw ->
  forall (dest : pystr) (chunk_size : Z) (chunks : list pystr) (fs : FS),
    file_content fs dest = Some [] ->
    Forall (fun c => (Z.of_nat (List.length c) <= chunk_size)%Z) chunks ->
    let res := write_chunks dest chunk_size chunks fs in
    file_content (fst res) dest = Some (List.concat chunks)
    /\ snd res = (chunk_size * Z.of_nat (List.length chunks))%Z
    /\ (Z.of_nat (List.length (List.concat chunks)) <= snd res)%Z
    /\ (Z.of_nat (List.length (List.concat chunks)) = snd res ->
        Forall (fun c => Z.of_nat (List.length c) = chunk_size) chunks).
Proof.
  intros Happ dest cs chunks fs Hempty Hall res. subst res.
  rewrite write_chunks_spec. cbn [fst snd].
  split; [now rewrite (chunks_append _ chunks Happ _ Hempty) |].
  split; [reflexivity |].
  induction Hall as [| c chunks Hc Hall IH]; [split; [simpl; lia | constructor] |].
  destruct IH as [IHle IHeq].
  cbn [List.concat List.length]. rewrite length_app. split; [lia |].
  intros Heq. assert (Hc' : Z.of_nat (List.length c) = cs) by lia.
  constructor; [exact Hc' |]. apply IHeq. lia.
Qed.

End DownloadFacts.

Section DestinationFacts.

Import Ascii String.

Context {host : Host}.

(** X17.  For a URL whose last segment is [name], a script directory
    and a data directory that are plain (not empty, no ["/"] at the end;
    the data directory not absolute), the destination is
    [sys.path[0]/dataDir/name]. *)
Theorem destination_plain :
  forall (pre name dataDir : pystr),
    noSep name ->
    sys_path_0 <> [] -> endswith_sep sys_path_0 = false ->
    dataDir <> [] -> startswith_sep dataDir = false ->
    endswith_sep dataDir = false ->
    basename (pre ++ SEP :: name) = name
    /\ destination (pre ++ SEP :: name) dataDir
       = sys_path_0 ++ SEP :: dataDir ++ SEP :: name.
Proof.
  intros pre name dataDir Hname Hs0 Hs1 Hd0 Hd1 Hd2.
  split; [now apply basename_last_segment |].
  unfold destination. rewrite basename_last_segment by exact Hname.
  unfold join. cbn [fold_left]. unfold join_step at 2. rewrite Hd1.
  destruct sys_path_0 as [| c s0] eqn:Es; [contradiction |].
  rewrite Hs1. unfold join_step.
  assert (Hn : startswith_sep name = false).
  { destruct Hname as [| c' name' Hc' _]; [reflexivity | exact Hc']. }
  rewrite Hn.
  assert (He : endswith_sep ((c :: s0) ++ SEP :: dataDir) = false).
  { rewrite (endswith_sep_app (c :: s0) (d := SEP :: dataDir)) by discriminate.
    destruct dataDir as [| d0 dd]; [contradiction |]. exact Hd2. }
  rewrite He. cbn [app]. now rewrite <- app_assoc.
Qed.

End DestinationFacts.

(** ** loadTle *)

Section LoadTleFacts.

Import Ascii String.

Context {host : Host}.

Lemma splitlines_from_end (line e rest : pystr) :
  noLineBreak line -> isLineEnd e ->
  forall cur,
    splitlines_from cur (line ++ e ++ rest)
    = (cur ++ line) :: splitlines_from [] rest.
Proof.
  intros Hline [-> | ->] cur; now apply splitlines_from_line.
Qed.

Lemma splitlines_from_length (s : pystr) :
  forall cur,
    (List.length (splitlines_from cur s) <= 1 + countBreaks s)%nat.
Proof.
  assert (H : forall n s, (List.length s <= n)%nat ->
                forall cur,
                  (List.length (splitlines_from cur s) <= 1 + countBreaks s)%nat).
  { induction n as [| n IH]; intros s' Hlen cur.
    - destruct s'; [| simpl in Hlen; lia]. simpl. destruct cur; simpl; lia.
    - destruct s' as [| c s']; [simpl; destruct cur; simpl; lia |].
      simpl in Hlen. unfold countBreaks. cbn [splitlines_from filter].
      unfold isLineBreak at 1.
      destruct (Ascii.eqb c LF) eqn:Hlf.
      + cbn [orb List.length]. specialize (IH s' ltac:(lia) []).
        unfold countBreaks in IH. lia.
      + destruct (Ascii.eqb c CR) eqn:Hcr; cbn [orb List.length].
        * destruct s' as [| c' s''].
          -- simpl. lia.
          -- simpl in Hlen. cbn [filter]. unfold isLineBreak at 1.
             destruct (Ascii.eqb c' LF) eqn:Hlf'.
             ++ cbn [orb List.length]. specialize (IH s'' ltac:(lia) []).
                unfold countBreaks in IH. lia.
             ++ cbn [List.length].
                specialize (IH (c' :: s'') ltac:(simpl; lia) []).
                unfold countBreaks in IH. cbn [filter] in IH.
                unfold isLineBreak at 1 in IH. rewrite Hlf' in IH. lia.
        * specialize (IH s' ltac:(lia) (cur ++ [c])).
          unfold countBreaks in IH. lia. }
  intros cur. now apply (H (List.length s)).
Qed.

(** X18.  On an answer with status 200 whose text is a name line and
    two element lines, each ended by ["\n"] or ["\r\n"], [loadTle]
    builds the element set from the second and the third line; the name
    line and anything after the third line are ignored. *)
Theorem loadTle_reads_lines_two_and_three :
  forall (T : Type) (mkTLE : pystr -> pystr -> T) (catnr : Z) (w : World host)
         (name line1 line2 e0 e1 e2 rest : pystr),
    let r := requests_get (List.length (sent w)) (tleRequest catnr) in
    status_code r = 200%Z ->
    content r = name ++ e0 ++ line1 ++ e1 ++ line2 ++ e2 ++ rest ->
    noLineBreak name -> noLineBreak line1 -> noLineBreak line2 ->
    isLineEnd e0 -> isLineEnd e1 -> isLineEnd e2 ->
    fst (loadTle mkTLE catnr w) = Ok (mkTLE line1 line2).
Proof.
  intros T mkTLE catnr w name line1 line2 e0 e1 e2 rest r Hst Hbody Hn H1 H2
         He0 He1 He2.
  unfold loadTle, send. fold (tleRequest catnr). fold r.
  rewrite Hst, Hbody. cbn [negb Z.eqb Pos.eqb]. unfold splitlines.
  rewrite (splitlines_from_end _ Hn He0), (splitlines_from_end _ H1 He1),
          (splitlines_from_end _ H2 He2).
  reflexivity.
Qed.

(** X19.  What a call of [loadTle] can do: it sends one request, prints
    nothing and touches no file.  It returns an element set only on
    status 200 and a text of at least three lines, and the two lines it
    passes on contain no line break.  On any other status it raises
    [RuntimeError] naming the catalog number, whatever the text; on
    status 200 and fewer than three lines it raises [IndexError]. *)
Theorem loadTle_outcomes :
  forall (T : Type) (mkTLE : pystr -> pystr -> T) (catnr : Z) (w : World host),
    let r := requests_get (List.length (sent w)) (tleRequest catnr) in
    let res := loadTle mkTLE catnr w in
    sent (snd res) = sent w ++ [tleRequest catnr]
    /\ stdout (snd res) = stdout w
    /\ files (snd res) = files w
    /\ match fst res with
       | Ok t =>
           status_code r = 200%Z
           /\ exists line1 line2,
                t = mkTLE line1 line2
                /\ nth_error (splitlines (content r)) 1 = Some line1
                /\ nth_error (splitlines (content r)) 2 = Some line2
                /\ noLineBreak line1 /\ noLineBreak line2
       | Raise e =>
           (status_code r <> 200%Z
            /\ e = RuntimeError
                     (lit "failed to load TLE for catalog number "
                      ++ str_int catnr))
           \/ (status_code r = 200%Z
               /\ e = IndexError
               /\ (List.length (splitlines (content r)) < 3)%nat)
       end.
Proof.
  intros T mkTLE catnr w r res. subst res.
  unfold loadTle, send. fold (tleRequest catnr). fold r.
  destruct (Z.eqb_spec (status_code r) 200) as [Hst | Hst]; cbn [negb].
  - pose proof (splitlines_from_noLineBreak (content r) (Forall_nil _)) as Hall.
    fold (splitlines (content r)) in Hall. rewrite Forall_forall in Hall.
    destruct (nth_error (splitlines (content r)) 1) as [l1 |] eqn:E1.
    + destruct (nth_error (splitlines (content r)) 2) as [l2 |] eqn:E2;
        cbn [fst snd sent stdout files];
        (split; [reflexivity |]); (split; [reflexivity |]);
        (split; [reflexivity |]).
      * split; [exact Hst |]. exists l1, l2.
        split; [reflexivity |]. split; [reflexivity |]. split; [reflexivity |].
        split; apply Hall; eapply nth_error_In; eassumption.
      * right. apply nth_error_None in E2.
        split; [exact Hst |]. split; [reflexivity | lia].
    + cbn [fst snd sent stdout files].
      split; [reflexivity |]. split; [reflexivity |]. split; [reflexivity |].
      right. apply nth_error_None in E1.
      split; [exact Hst |]. split; [reflexivity | lia].
  - cbn [fst snd sent stdout files].
    split; [reflexivity |]. split; [reflexivity |]. split; [reflexivity |].
    left. now split.
Qed.

(** X20.  An answer with status 200 whose text has fewer than two line
    breaks, such as a one-line message, makes [loadTle] raise
    [IndexError]. *)
Theorem loadTle_short_text_raises_IndexError :
  forall (T : Type) (mkTLE : pystr -> pystr -> T) (catnr : Z) (w : World host),
    let r := requests_get (List.length (sent w)) (tleRequest catnr) in
    status_code r = 200%Z ->
    (countBreaks (content r) <= 1)%nat ->
    fst (loadTle mkTLE catnr w) = Raise IndexError.
Proof.
  intros T mkTLE catnr w r Hst Hbr.
  unfold loadTle, send. fold (tleRequest catnr). fold r.
  rewrite Hst. cbn [negb Z.eqb Pos.eqb].
  pose proof (splitlines_from_length (content r) []) as Hlen.
  fold (splitlines (content r)) in Hlen.
  assert (E2 : nth_error (splitlines (content r)) 2 = None)
    by (apply nth_error_None; lia).
  rewrite E2. now destruct (nth_error (splitlines (content r)) 1).
Qed.

End LoadTleFacts.

(** ** The host in memory meets the contracts *)

Lemma pystr_eqb_refl (p : pystr) : MemoryHost.pystr_eqb p p = true.
Proof.
  induction p as [| c p IH]; [reflexivity |].
  simpl. now rewrite Ascii.eqb_refl, IH.
Qed.

Lemma memory_OpenCreatesLaw (writable : bool) :
  @OpenCreatesLaw (MemoryHost.hostWith writable).
Proof.
  intros fs fs' p. cbn. destruct writable; [| discriminate].
  intros [= <-]. unfold MemoryHost.exists_, MemoryHost.read, MemoryHost.update.
  now rewrite pystr_eqb_refl.
Qed.

Lemma memory_WriteKeepsLaw (writable : bool) :
  @WriteKeepsLaw (MemoryHost.hostWith writable).
Proof.
  intros fs p q c. cbn. unfold MemoryHost.exists_, MemoryHost.write.
  destruct (fs p) as [[| old] |]; try tauto.
  unfold MemoryHost.update. now destruct (MemoryHost.pystr_eqb q p).
Qed.

Lemma memory_WriteAppendsLaw (writable : bool) :
  @WriteAppendsLaw (MemoryHost.hostWith writable).
Proof.
  intros fs p c old. cbn. unfold MemoryHost.read, MemoryHost.write.
  destruct (fs p) as [[| old'] |]; try discriminate.
  intros [= ->]. unfold MemoryHost.update. now rewrite pystr_eqb_refl.
Qed.

(** ** Runs on the synthetic Earth and on the host in memory *)

Section MoreRuns.

Import Ascii String.


Lemma aggregate_keeps_dict_ok_witness :
  let s := {| deltaTime := 30%Z; posError := 2%Z; velMagError := 1%Z;
              velAngError := 0%Z |} in
  DictOk (num := exactZ) [] /\ DictOk (aggregate (num := exactZ) [] [s; s]).
Proof.
  intros s.
  assert (H : DictOk (num := exactZ) []) by (split; constructor).
  split; [exact H |].
  exact (@aggregate_keeps_dict_ok Z exactZ [] [s; s] H).
Defined.


(** A first download of the archive, and a second one. *)
Lemma download_is_cached_witness :
  let w' := snd (download (host := MemoryHost.host) MemoryHost.archive
                   (lit "data") 128 MemoryHost.start) in
  @OpenCreatesLaw MemoryHost.host /\ @WriteKeepsLaw MemoryHost.host
  /\ download (host := MemoryHost.host) MemoryHost.archive (lit "data") 128
       MemoryHost.start
     = (Ok (lit "/home/user/fast-eci/src/data/data.zip"), w')
  /\ download (host := MemoryHost.host) MemoryHost.archive (lit "data") 128 w'
     = (Ok (lit "/home/user/fast-eci/src/data/data.zip"), w').
Proof.
  intros w'.
  split; [exact (@memory_OpenCreatesLaw true) |].
  split; [exact (@memory_WriteKeepsLaw true) |].
  assert (H : download (host := MemoryHost.host) MemoryHost.archive (lit "data")
                128 MemoryHost.start
              = (Ok (lit "/home/user/fast-eci/src/data/data.zip"), w'))
    by reflexivity.
  split; [exact H |].
  exact (proj2 (@download_is_cached MemoryHost.host (@memory_OpenCreatesLaw true)
                  (@memory_WriteKeepsLaw true) MemoryHost.archive (lit "data")
                  128%Z MemoryHost.start)
           _ _ H).
Defined.

Lemma download_fetches_once_witness :
  let w' := snd (download (host := MemoryHost.host) MemoryHost.archive
                   (lit "data") 128 MemoryHost.start) in
  os_path_exists (Host := MemoryHost.host) (files MemoryHost.start)
    (destination (host := MemoryHost.host) MemoryHost.archive (lit "data"))
  = false
  /\ sent w' = [downloadRequest MemoryHost.archive]
  /\ stdout w' = [lit "https://example.org/files/data.zip ... 200"; lit "256"]
  /\ file_content (Host := MemoryHost.host) (files w')
       (lit "/home/user/fast-eci/src/data/data.zip")
     = Some MemoryHost.body
  /\ List.length MemoryHost.body = 155%nat.
Proof.
  intros w'.
  split; [reflexivity |].
  destruct (@download_fetches_once MemoryHost.host (@memory_OpenCreatesLaw true)
              (@memory_WriteAppendsLaw true) MemoryHost.archive (lit "data") 128%Z
              MemoryHost.start w' (lit "/home/user/fast-eci/src/data/data.zip")
              eq_refl eq_refl) as (_ & Hsent & Hout & Hfile).
  split; [exact Hsent |]. split; [exact Hout |]. split; [exact Hfile |].
  reflexivity.
Defined.

(** Two chunks of at most three characters: five characters are
    written and the size counted is six. *)
Lemma download_size_counts_chunks_witness :
  let dest := lit "out" in
  let fs := MemoryHost.update MemoryHost.empty dest (MemoryHost.File []) in
  let res := write_chunks (host := MemoryHost.host) dest 3 [lit "abc"; lit "de"] fs in
  file_content (Host := MemoryHost.host) fs dest = Some []
  /\ Forall (fun c => (Z.of_nat (List.length c) <= 3)%Z) [lit "abc"; lit "de"]
  /\ file_content (Host := MemoryHost.host) (fst res) dest = Some (lit "abcde")
  /\ snd res = 6%Z.
Proof.
  intros dest fs res.
  assert (H0 : file_content (Host := MemoryHost.host) fs dest = Some [])
    by reflexivity.
  assert (H1 : Forall (fun c => (Z.of_nat (List.length c) <= 3)%Z)
                 [lit "abc"; lit "de"])
    by (repeat constructor; discriminate).
  split; [exact H0 |]. split; [exact H1 |].
  destruct (@download_size_counts_chunks MemoryHost.host
              (@memory_WriteAppendsLaw true) dest 3%Z [lit "abc"; lit "de"] fs
              H0 H1) as (Hfile & Hsz & _).
  split; [exact Hfile | exact Hsz].
Defined.

Lemma destination_plain_witness :
  noSep (lit "data.zip")
  /\ destination (host := MemoryHost.host)
       (lit "https://example.org/files" ++ SEP :: lit "data.zip") (lit "data")
     = lit "/home/user/fast-eci/src/data/data.zip".
Proof.
  assert (H : noSep (lit "data.zip")) by (repeat constructor).
  split; [exact H |].
  refine (proj2 (@destination_plain MemoryHost.host (lit "https://example.org/files")
                   (lit "data.zip") (lit "data") H _ eq_refl _ eq_refl eq_refl));
    discriminate.
Defined.

(** The element set of the first answer of the server. *)
Lemma loadTle_reads_lines_two_and_three_witness :
  status_code (requests_get (Host := MemoryHost.host) 0 (tleRequest 25544)) = 200%Z
  /\ noLineBreak MemoryHost.name_line
  /\ noLineBreak MemoryHost.line1
  /\ noLineBreak MemoryHost.line2
  /\ isLineEnd [CR; LF]
  /\ fst (loadTle (host := MemoryHost.host) (@pair pystr pystr) 25544
            MemoryHost.start)
     = Ok (MemoryHost.line1, MemoryHost.line2).
Proof.
  assert (Hn : noLineBreak MemoryHost.name_line) by (repeat constructor).
  assert (H1 : noLineBreak MemoryHost.line1) by (repeat constructor).
  assert (H2 : noLineBreak MemoryHost.line2) by (repeat constructor).
  assert (He : isLineEnd [CR; LF]) by (right; reflexivity).
  split; [reflexivity |]. split; [exact Hn |]. split; [exact H1 |].
  split; [exact H2 |]. split; [exact He |].
  exact (@loadTle_reads_lines_two_and_three MemoryHost.host (pystr * pystr)%type
           (@pair pystr pystr) 25544%Z MemoryHost.start MemoryHost.name_line
           MemoryHost.line1 MemoryHost.line2 [CR; LF] [CR; LF] [CR; LF] []
           eq_refl eq_refl Hn H1 H2 He He He).
Defined.

(** The second answer of the server is a one-line message. *)
Lemma loadTle_short_text_raises_IndexError_witness :
  status_code (requests_get (Host := MemoryHost.host) 1 (tleRequest 25544)) = 200%Z
  /\ (countBreaks
        (content (requests_get (Host := MemoryHost.host) 1 (tleRequest 25544)))
      <= 1)%nat
  /\ fst (loadTle (host := MemoryHost.host) (@pair pystr pystr) 25544
            MemoryHost.second)
     = Raise IndexError.
Proof.
  assert (Hb : (countBreaks
                  (content (requests_get (Host := MemoryHost.host) 1
                              (tleRequest 25544))) <= 1)%nat)
    by (repeat constructor).
  split; [reflexivity |]. split; [exact Hb |].
  exact (@loadTle_short_text_raises_IndexError MemoryHost.host
           (pystr * pystr)%type (@pair pystr pystr) 25544%Z MemoryHost.second
           eq_refl Hb).
Defined.

End MoreRuns.
